(** * DiscordGemini: memory pipeline and model gateway

    A shallow embedding of [DiscordGemini.py]: the model gateway with its
    fallback over [MODELS], the long-term memory curator, the relevance
    filter, the prompt composer, the short-term buffer and the memory file
    loader, followed by the properties the design document states about
    them. *)

From Stdlib Require Import NArith ZArith String Ascii.
From stdpp Require Import base list strings gmap.

Local Open Scope N_scope.

(** ** Python strings

    A Python [str] is a sequence of Unicode code points; [len], slicing,
    [strip] and [splitlines] all count code points. *)

Definition codepoint := N.
Definition pystr := list codepoint.

(** An ASCII literal, as written in the source. *)
Definition py (s : string) : pystr :=
  map N_of_ascii (list_ascii_of_string s).

Definition NL : codepoint := 10.
Definition CR : codepoint := 13.
Definition QUOTE : codepoint := 34.

Definition pystr_eqb (a b : pystr) : bool := bool_decide (a = b).

(** [str.isspace] on one code point (CPython's [_PyUnicode_IsWhitespace]). *)
Definition is_space (c : codepoint) : bool :=
  ((9 <=? c) && (c <=? 13)) || ((28 <=? c) && (c <=? 32))
  || (c =? 133) || (c =? 160) || (c =? 5760)
  || ((8192 <=? c) && (c <=? 8202))
  || (c =? 8232) || (c =? 8233) || (c =? 8239) || (c =? 8287) || (c =? 12288).

(** Line boundaries of [str.splitlines] (CPython's [_PyUnicode_IsLinebreak]). *)
Definition is_linebreak (c : codepoint) : bool :=
  ((10 <=? c) && (c <=? 13)) || ((28 <=? c) && (c <=? 30))
  || (c =? 133) || (c =? 8232) || (c =? 8233).

Fixpoint lstrip (s : pystr) : pystr :=
  match s with
  | [] => []
  | c :: rest => if is_space c then lstrip rest else s
  end.

Definition rstrip (s : pystr) : pystr := rev (lstrip (rev s)).

(** [s.strip()] *)
Definition strip (s : pystr) : pystr := rstrip (lstrip s).

(** [s.startswith(p)] *)
Fixpoint startswith (s p : pystr) {struct p} : bool :=
  match p, s with
  | [], _ => true
  | _ :: _, [] => false
  | d :: p', c :: s' => (c =? d) && startswith s' p'
  end.

(** [s.splitlines()]: [acc] is the line read so far.  A line is emitted at
    each boundary, the pair CR LF counting as one boundary, and at the end of
    the string when characters are pending. *)
Fixpoint splitlines_from (acc s : pystr) : list pystr :=
  match s with
  | [] => match acc with [] => [] | _ :: _ => [acc] end
  | c :: rest =>
      if is_linebreak c then
        acc :: match rest with
               | d :: rest' =>
                   if (c =? CR) && (d =? NL) then splitlines_from [] rest'
                   else splitlines_from [] rest
               | [] => splitlines_from [] rest
               end
      else splitlines_from (acc ++ [c]) rest
  end.

Definition splitlines (s : pystr) : list pystr := splitlines_from [] s.

(** [sep.join(parts)] *)
Fixpoint join (sep : pystr) (parts : list pystr) : pystr :=
  match parts with
  | [] => []
  | [p] => p
  | p :: ps => p ++ sep ++ join sep ps
  end.

(** Python slices [l[start:]] and [l[:stop]] for an integer bound of either
    sign: a negative bound counts from the end, and bounds are clamped to
    the list. *)
Definition slice_from {A} (start : Z) (l : list A) : list A :=
  let n := Z.of_nat (length l) in
  let i := if (start <? 0)%Z then Z.max 0 (start + n) else Z.min start n in
  drop (Z.to_nat i) l.

Definition slice_to {A} (stop : Z) (l : list A) : list A :=
  let n := Z.of_nat (length l) in
  let j := if (stop <? 0)%Z then Z.max 0 (stop + n) else Z.min stop n in
  take (Z.to_nat j) l.

(** ** Exceptions and results *)

(** An instance of [google.genai.errors.APIError], the base class of
    [ClientError].  Its constructor sets the attributes [code], [response],
    [details], [message] and [status]; the class has no other data
    attribute, and none named [status_code]. *)
Record APIError := mkAPIError {
  code : Z;
  status : option pystr;
  message : option pystr
}.

Inductive exn :=
  | ClientError (e : APIError)      (* google.genai.errors.ClientError *)
  | AttributeError (name : string)
  | TypeError
  | KeyError (key : pystr)
  | OtherError (what : string).     (* any other exception *)

Inductive result (A : Type) :=
  | Returned (a : A)
  | Raised (e : exn).
Arguments Returned {A} a.
Arguments Raised {A} e.

(** The value of an attribute of an [APIError]: an integer, an optional
    string, or an object of the HTTP layer. *)
Inductive attribute :=
  | AInt (n : Z)
  | AStr (s : option pystr)
  | AObject.

(** [e.name] for a plain attribute name: the instance holds the five
    attributes the constructor sets, and neither [APIError] nor the built-in
    exception classes define another one under such a name as
    [status_code]. *)
Definition getattr (e : APIError) (name : string) : result attribute :=
  if String.eqb name "code" then Returned (AInt (code e))
  else if String.eqb name "status" then Returned (AStr (status e))
  else if String.eqb name "message" then Returned (AStr (message e))
  else if String.eqb name "details" then Returned AObject
  else if String.eqb name "response" then Returned AObject
  else Raised (AttributeError name).

(** [v == n] for an integer literal [n] *)
Definition equals_int (v : attribute) (n : Z) : bool :=
  match v with
  | AInt m => (m =? n)%Z
  | _ => false
  end.

(** ** JSON values, as [json.loads] builds them *)

#[warnings="-register-all"] Inductive json :=
  | JNull
  | JBool (b : bool)
  | JNumber (literal : pystr)
  | JString (s : pystr)
  | JArray (items : list json)
  | JObject (members : list (pystr * json)).

(** ** External collaborators

    What the program reaches through libraries: the generation backend
    behind [client_ai.chats], the Unicode case table and the JSON parser. *)

Class Platform := {
  (** state of the remote backend *)
  World : Type;
  (** [client_ai.chats.create(model=model).send_message(prompt)] followed by
      [.candidates[0].content.parts[0].text]: the text, or the exception any
      of these steps raises *)
  send_message : string -> pystr -> World -> result pystr * World;
  (** uppercase expansion of a code point outside ASCII *)
  upper_other : codepoint -> pystr;
  (** [json.loads]; a [JSONDecodeError] is [None] *)
  json_loads : pystr -> option json
}.

(** [s.upper()] *)
Definition upper_char `{P : Platform} (c : codepoint) : pystr :=
  if (97 <=? c) && (c <=? 122) then [c - 32]
  else if c <? 128 then [c]
  else upper_other c.

Definition upper `{P : Platform} (s : pystr) : pystr := flat_map upper_char s.

(** ** The interpreter state seen by the gateway: the backend and the log of
    the calls made to it, oldest first. *)

Record state `{P : Platform} := mkState {
  world : World;
  calls : list (string * pystr)
}.

Definition M `{P : Platform} (A : Type) : Type := state -> result A * state.

Definition ret `{P : Platform} {A} (a : A) : M A := fun st => (Returned a, st).

Definition bind `{P : Platform} {A B} (m : M A) (k : A -> M B) : M B :=
  fun st =>
    match m st with
    | (Returned a, st') => k a st'
    | (Raised e, st') => (Raised e, st')
    end.

Notation "'do' x <- m ; k" := (bind m (fun x => k))
  (at level 10, x name, m at level 100, k at level 200).

(** ** Configuration *)

Definition SHORT_TERM_TURNS : Z := 6.

Definition MODELS : list string :=
  [ "gemma-3-27b-it";
    "gemma-3-12b-it";
    "gemma-3-4b-it";
    "gemma-3-2b-it";
    "gemma-3-1b-it";
    "gemini-2.5-flash-lite" ]%string.

(** ** Memory file *)

Inductive file :=
  | Missing                   (* [os.path.exists] is false *)
  | Unreadable                (* the path exists; [open] or [read] raises *)
  | Contents (text : pystr).

Definition path_exists (f : file) : bool :=
  match f with Missing => false | _ => true end.

Definition open_read (f : file) : result pystr :=
  match f with
  | Contents text => Returned text
  | _ => Raised (OtherError "OSError")
  end.

(** [try: body  except: handler] with a bare [except] *)
Definition try_except {A} (body : result A) (handler : result A) : result A :=
  match body with
  | Returned a => Returned a
  | Raised _ => handler
  end.

Definition load_memories `{P : Platform} (f : file) : result json :=
  if negb (path_exists f) then Returned (JObject [])
  else
    try_except
      match open_read f with
      | Raised e => Raised e
      | Returned text =>
          let content := strip text in
          match content with
          | [] => Returned (JObject [])
          | _ :: _ =>
              match json_loads content with
              | Some v => Returned v
              | None => Raised (OtherError "JSONDecodeError")
              end
          end
      end
      (Returned (JObject [])).

(** ** Model call with fallback *)

Definition UNAVAILABLE : pystr := py "I'm temporarily unavailable.".

(** The [for model in MODELS] loop of [call_model], from [models] on. *)
Fixpoint call_model_from `{P : Platform} (models : list string) (prompt : pystr)
    : M pystr :=
  fun st =>
    match models with
    | [] => (Returned UNAVAILABLE, st)
    | model :: rest =>
        let '(r, w) := send_message model prompt (world st) in
        let st' := mkState _ w (calls st ++ [(model, prompt)]) in
        match r with
        | Returned text => (Returned (strip text), st')
        | Raised (ClientError e) =>
            match getattr e "status_code" with
            | Raised inner => (Raised inner, st')
            | Returned status_code =>
                if equals_int status_code 429   (* quota exceeded *)
                then call_model_from rest prompt st'
                else (Raised (ClientError e), st')
            end
        | Raised e => (Raised e, st')
        end
    end.

Definition call_model `{P : Platform} (prompt : pystr) : M pystr :=
  call_model_from MODELS prompt.

(** ** Bullet lists in a reply *)

Definition BULLET : pystr := py "- ".
Definition NONE : pystr := py "NONE".

(** [result.strip().upper() == "NONE"] *)
Definition is_none `{P : Platform} (result : pystr) : bool :=
  pystr_eqb (upper (strip result)) NONE.

(** What one [line] adds to the comprehension
    [[line[2:].strip() for line in ... if line.startswith("- ")]] *)
Definition fact_of_line (line : pystr) : list pystr :=
  if startswith line BULLET then [strip (slice_from 2 line)] else [].

(** [[line[2:].strip() for line in result.splitlines() if line.startswith("- ")]] *)
Definition parse_bullets (result : pystr) : list pystr :=
  flat_map fact_of_line (splitlines result).

(** [chr(10).join('- ' + m for m in memories)] *)
Definition bullet_list (memories : list pystr) : pystr :=
  join [NL] (map (fun m => BULLET ++ m) memories).

(** [x or 'NONE'] on a string *)
Definition or_NONE (x : pystr) : pystr :=
  match x with [] => NONE | _ :: _ => x end.

(** ** Long-term memory update *)

Definition update_prompt (user_message : pystr) (existing_memories : list pystr)
    : pystr :=
  join [NL]
    [ [];
      py "You are a LONG-TERM MEMORY FILTER.";
      [];
      py "Existing memories:";
      or_NONE (bullet_list existing_memories);
      [];
      py "New user message:";
      user_message;
      [];
      py "STRICT RULES:";
      py "- Save only durable personal info (identity, preferences, projects, constraints)";
      py "- Ignore conversation, questions, debugging, temporary info";
      py "- If nothing qualifies, respond EXACTLY: NONE";
      py "- Merge and deduplicate";
      py "- Keep each memory factual, neutral, under 80 characters";
      py "- Do not reference the conversation or user message";
      py "- Keep the amount of memories manageable (max 20)";
      py "- If the user has more than 15 memories, prioritize the most relevant ones";
      py "- Delete less relevant memories if necessary";
      py "- If the message has 'Always must be included' ensure that memory is kept and is not edited in any way.";
      py "- Output bullet list only:";
      py "EXAMPLE OUTPUT:";
      py "- Memory 1";
      py "- Memory 2";
      [] ].

Definition update_memories `{P : Platform}
    (user_message : pystr) (existing_memories : list pystr) : M (list pystr) :=
  do result <- call_model (update_prompt user_message existing_memories);
  if is_none result then ret existing_memories
  else ret (parse_bullets result).

(** ** Relevant memory filter *)

Definition relevance_prompt (user_message : pystr) (long_term : list pystr)
    : pystr :=
  join [NL]
    [ [];
      py "You are a memory relevance filter.";
      py "User said: " ++ [QUOTE] ++ user_message ++ [QUOTE];
      [];
      py "Existing memories:";
      bullet_list long_term;
      [];
      py "RULES:";
      py "- Only keep memories that are directly relevant to the user's message.";
      py "- Discard unrelated memories.";
      py "- Output a bullet list of relevant memories only, or NONE if none apply.";
      py "- The name is ALWAYS relevant and should almost ALWAYS be included.";
      py "- Do not modify the memories in any way.";
      py "- If the memory includes 'Always must be included' the memory must be included in the output.";
      py "- EXAMPLE OUTPUT:";
      py "- Relevant memory 1";
      py "- Relevant memory 2";
      [] ].

Definition get_relevant_memories `{P : Platform}
    (user_message : pystr) (long_term : list pystr) : M (list pystr) :=
  match long_term with
  | [] => ret []
  | _ :: _ =>
      do result <- call_model (relevance_prompt user_message long_term);
      if is_none result then ret []
      else ret (parse_bullets result)
  end.

(** ** Prompt build *)

Record turn := mkTurn { role : pystr; content : pystr }.

Definition SYSTEM : pystr :=
  py "System: You are a helpful Discord assistant. "
  ++ py "Use the user's name when appropriate. "
  ++ py "Do not reference personal memories unless the user explicitly mentions them. "
  ++ py "If you do use personal details, do so sparingly and only when directly relevant. "
  ++ py "All of your messages should be formatted according to Discord markdown standards. "
  ++ py "Your response can be a MAXIMUM of 2000 characters, any longer and it will be cut off!"
  ++ py "Focus on providing clear, helpful, and neutral responses." ++ [NL; NL].

Definition memories_block (relevant : list pystr) : pystr :=
  match relevant with
  | [] => []
  | _ :: _ =>
      py "Relevant user memories:" ++ [NL]
      ++ flat_map (fun m => BULLET ++ m ++ [NL]) relevant
      ++ [NL]
  end.

Definition conversation_block (short_term : list turn) : pystr :=
  py "Recent conversation:" ++ [NL]
  ++ flat_map (fun msg =>
                 (if pystr_eqb (role msg) (py "user") then py "You" else py "Bot")
                 ++ py ": " ++ content msg ++ [NL])
              short_term.

Definition build_prompt `{P : Platform}
    (long_term : list pystr) (short_term : list turn) : M pystr :=
  do memories <-
    match long_term, last short_term with
    | _ :: _, Some newest =>
        do relevant <- get_relevant_memories (content newest) long_term;
        ret (memories_block relevant)
    | _, _ => ret []
    end;
  ret (SYSTEM ++ memories ++ conversation_block short_term).

Definition trim_short_term {A} (short_term : list A) : list A :=
  slice_from (- SHORT_TERM_TURNS * 2) short_term.

(** ** The slash command *)

(** The cut to Discord's message limit in [ask]. *)
Definition discord_limit (reply : pystr) : pystr :=
  if (2000 <? Z.of_nat (length reply))%Z then slice_to 1997 reply ++ py "..."
  else reply.

(** *** The memory store as the Python object it is

    [persistent_memories] is whatever [load_memories] returned, and [ask]
    reads and writes it by the operators below.  The members of a [JObject]
    are the items of the dict in order, one per key. *)

Fixpoint dict_get (members : list (pystr * json)) (key : pystr) : option json :=
  match members with
  | [] => None
  | (k, v) :: rest => if pystr_eqb k key then Some v else dict_get rest key
  end.

Fixpoint dict_set (members : list (pystr * json)) (key : pystr) (v : json)
    : list (pystr * json) :=
  match members with
  | [] => [(key, v)]
  | (k, old) :: rest =>
      if pystr_eqb k key then (k, v) :: rest
      else (k, old) :: dict_set rest key v
  end.

(** [needle in hay] on two strings *)
Fixpoint contains_str (needle hay : pystr) : bool :=
  startswith hay needle
  || match hay with
     | [] => false
     | _ :: rest => contains_str needle rest
     end.

(** [key in obj] for a string [key] *)
Definition contains (obj : json) (key : pystr) : result bool :=
  match obj with
  | JObject members =>
      Returned (match dict_get members key with Some _ => true | None => false end)
  | JArray items =>
      Returned (existsb (fun item => match item with
                                     | JString s => pystr_eqb s key
                                     | _ => false
                                     end) items)
  | JString s => Returned (contains_str key s)
  | _ => Raised TypeError
  end.

(** [obj[key]] for a string [key] *)
Definition getitem (obj : json) (key : pystr) : result json :=
  match obj with
  | JObject members =>
      match dict_get members key with
      | Some v => Returned v
      | None => Raised (KeyError key)
      end
  | _ => Raised TypeError
  end.

(** [obj[key] = v] for a string [key]; the object after the assignment *)
Definition setitem (obj : json) (key : pystr) (v : json) : result json :=
  match obj with
  | JObject members => Returned (JObject (dict_set members key v))
  | _ => Raised TypeError
  end.

(** The strings ['- ' + m for m in obj] concatenates to, or the exception
    the generator raises: a list yields its items, which must be strings; a
    string yields its characters; a dict yields its keys. *)
Definition iter_strs (obj : json) : result (list pystr) :=
  match obj with
  | JArray items =>
      foldr (fun item acc =>
               match item, acc with
               | JString s, Returned rest => Returned (s :: rest)
               | JString _, Raised e => Raised e
               | _, _ => Raised TypeError
               end)
            (Returned []) items
  | JString s => Returned (map (fun c => [c]) s)
  | JObject members => Returned (map fst members)
  | _ => Raised TypeError
  end.

(** [update_memories] on the object found in the store: the iteration of
    line 82 comes first, and the no-change answer returns the object
    itself. *)
Definition update_memories_value `{P : Platform}
    (user_message : pystr) (existing_memories : json) : M json :=
  fun st =>
    match iter_strs existing_memories with
    | Raised e => (Raised e, st)
    | Returned items =>
        (do result <- call_model (update_prompt user_message items);
         if is_none result then ret existing_memories
         else ret (JArray (map JString (parse_bullets result)))) st
    end.

(** The module-level dictionaries, and the object last handed to
    [save_memories], if any.  A session entry holds the list under its only
    key ["short"]. *)
Record bot := mkBot {
  user_sessions : gmap pystr (list turn);
  persistent_memories : json;
  last_saved : option json
}.

(** One [/ask] request of user [user_id], run to completion; the platform's
    [defer] and [followup.send] and the file write are taken to succeed.
    The value returned is the text handed to [ctx.followup.send].

    [build_prompt] reads its first argument by truth value and by iteration
    only, which on a list, a string or a dict are those of the items
    [iter_strs] gives; the object [update_memories_value] returns is always
    one of these, so [build_prompt] is run on its items. *)
Definition ask `{P : Platform} (user_id : pystr) (message : pystr)
    (b : bot) (st : state) : result pystr * bot * state :=
  (* lines 193-194 *)
  let sessions :=
    match user_sessions b !! user_id with
    | Some _ => user_sessions b
    | None => <[user_id := []]> (user_sessions b)
    end in
  let stop e memories := (Raised e, mkBot sessions memories (last_saved b), st) in
  (* lines 195-196 *)
  match contains (persistent_memories b) user_id with
  | Raised e => stop e (persistent_memories b)
  | Returned present =>
  match (if present then Returned (persistent_memories b)
         else setitem (persistent_memories b) user_id
                (JObject [(py "long", JArray [])])) with
  | Raised e => stop e (persistent_memories b)
  | Returned memories =>
  (* lines 198-199 *)
  let short := default [] (sessions !! user_id) in
  match getitem memories user_id with
  | Raised e => stop e memories
  | Returned entry =>
  match getitem entry (py "long") with
  | Raised e => stop e memories
  | Returned long =>
  (* lines 202-204 *)
  let short := trim_short_term (short ++ [mkTurn (py "user") message]) in
  let sessions := <[user_id := short]> sessions in
  (* lines 207-208 *)
  match update_memories_value message long st with
  | (Raised e, st1) => (Raised e, mkBot sessions memories (last_saved b), st1)
  | (Returned long, st1) =>
  match setitem entry (py "long") long with
  | Raised e => (Raised e, mkBot sessions memories (last_saved b), st1)
  | Returned entry =>
  match setitem memories user_id entry with
  | Raised e => (Raised e, mkBot sessions memories (last_saved b), st1)
  | Returned memories =>
  let b1 := mkBot sessions memories (Some memories) in
  (* lines 212-213 *)
  match iter_strs long with
  | Raised e => (Raised e, b1, st1)
  | Returned items =>
  match build_prompt items short st1 with
  | (Raised e, st2) => (Raised e, b1, st2)
  | (Returned prompt, st2) =>
  match call_model prompt st2 with
  | (Raised e, st3) => (Raised e, b1, st3)
  | (Returned reply, st3) =>
      (* lines 216-222 *)
      let reply := discord_limit reply in
      let short :=
        trim_short_term (short ++ [mkTurn (py "assistant") reply]) in
      (Returned reply,
       mkBot (<[user_id := short]> sessions) memories (Some memories), st3)
  end end end end end end end end end end.

(** ** Vocabulary of the properties *)

(** The calls one pass over [models] logs for [prompt]. *)
Definition attempts (models : list string) (prompt : pystr)
    : list (string * pystr) :=
  map (fun model => (model, prompt)) models.

(** The model asked first. *)
Definition FIRST_MODEL : string := "gemma-3-27b-it".

(** [result] is [text] without its surrounding whitespace: what was cut off
    at either end is whitespace, and [result] neither starts nor ends with
    whitespace. *)
Definition trimmed (text result : pystr) : Prop :=
  (exists lead trail,
      text = lead ++ result ++ trail
      /\ Forall (fun c => is_space c = true) lead
      /\ Forall (fun c => is_space c = true) trail)
  /\ (forall c rest, result = c :: rest -> is_space c = false)
  /\ (forall c rest, result = rest ++ [c] -> is_space c = false).

(** The facts a list of lines stands for, in the words of the parsing
    policy: a line is a fact iff it begins with the bullet marker, and the
    fact is the rest of the line without its surrounding whitespace. *)
Inductive facts_of_lines : list pystr -> list pystr -> Prop :=
  | facts_end : facts_of_lines [] []
  | facts_bullet rest lines facts :
      facts_of_lines lines facts ->
      facts_of_lines ((BULLET ++ rest) :: lines) (strip rest :: facts)
  | facts_skip line lines facts :
      ~ BULLET `prefix_of` line ->
      facts_of_lines lines facts ->
      facts_of_lines (line :: lines) facts.

(** The preservation marker of the curator's prompt. *)
Definition MARKER : pystr := py "Always must be included".

Definition pinned (fact : pystr) : Prop :=
  exists before after, fact = before ++ MARKER ++ after.

(** A reply carries [fact] when one of its bullet lines reads as [fact]. *)
Definition carries (result fact : pystr) : Prop :=
  exists rest, BULLET ++ rest ∈ splitlines result /\ strip rest = fact.

Definition bullet_lines (result : pystr) : list pystr :=
  filter (fun line => startswith line BULLET = true) (splitlines result).

(** Sample data for the test double. *)
Definition SAMPLE_DOCUMENT : pystr :=
  py "{" ++ [QUOTE] ++ py "42" ++ [QUOTE] ++ py ": {" ++ [QUOTE] ++ py "long"
  ++ [QUOTE] ++ py ": []}}".

Definition SAMPLE_MAPPING : json :=
  JObject [(py "42", JObject [(py "long", JArray [])])].

Definition TEA_REPLY : pystr :=
  py "  - Likes tea" ++ [NL] ++ py "Sure, updated." ++ [NL]
  ++ py "- Uses Linux  " ++ [NL].

Definition PINNED_FACT : pystr := py "Always must be included: name is Alex".

Definition CROWDED_REPLY : pystr := join [NL] (replicate 21 (py "- Likes tea")).

(** A test double for the collaborators: the backend answers by model and
    prompt and counts its calls, code points outside ASCII have no case, and
    the parser knows the empty object and the sample document. *)
Definition scripted (answer : string -> pystr -> result pystr) : Platform :=
  {| World := nat;
     send_message := fun model prompt w => (answer model prompt, S w);
     upper_other := fun c => [c];
     json_loads := fun s =>
       if pystr_eqb s (py "{}") then Some (JObject [])
       else if pystr_eqb s SAMPLE_DOCUMENT then Some SAMPLE_MAPPING
       else None |}.

Definition start (P : Platform) (w : @World P) : @state P := mkState P w [].

(** The errors of a backend out of quota, and of one that refuses the key. *)
Definition QUOTA : APIError :=
  mkAPIError 429 (Some (py "RESOURCE_EXHAUSTED")) (Some (py "Quota exceeded")).

Definition FORBIDDEN : APIError :=
  mkAPIError 403 (Some (py "PERMISSION_DENIED")) None.

(** A backend whose first [n] models of [MODELS] are out of capacity and
    whose other models all respond with [r]. *)
Definition fallback_script (n : nat) (r : result pystr)
    : string -> pystr -> result pystr :=
  fun model _ =>
    if bool_decide (model ∈ take n MODELS) then Raised (ClientError QUOTA)
    else r.

(** Spellings of [word] that differ from it in the case of ASCII letters
    only, [word] being in upper case. *)
Definition case_variant (s word : pystr) : Prop :=
  Forall2 (fun c d => c = d \/ c = (d + 32)%N) s word.

(** The curation invariant as the design document words it: at most 20
    facts after curation, and every pinned fact kept as it was. *)
Definition curation_invariant : Prop :=
  forall (P : Platform) user_message existing (st : state) facts st',
    update_memories user_message existing st = (Returned facts, st') ->
    (length facts <= 20)%nat
    /\ forall fact, fact ∈ existing -> pinned fact -> fact ∈ facts.

(** The first model is out of capacity and the others answer; every model
    is out of capacity; every model refuses the key; the connection fails. *)
Definition first_exhausted : Platform :=
  scripted (fallback_script 1 (Returned TEA_REPLY)).

Definition all_exhausted : Platform :=
  scripted (fallback_script 6 (Returned TEA_REPLY)).

Definition all_forbidden : Platform :=
  scripted (fun _ _ => Raised (ClientError FORBIDDEN)).

Definition disconnected : Platform :=
  scripted (fun _ _ => Raised (OtherError "ConnectionError")).

(** The first model answers [text]. *)
Definition answers (text : pystr) : Platform :=
  scripted (fallback_script 0 (Returned text)).

(** A string without line boundaries: [splitlines] keeps it on one line. *)
Definition single_line (s : pystr) : Prop :=
  Forall (fun c => is_linebreak c = false) s.

(** A fact as the parser produces it: stripped and on one line. *)
Definition clean_fact (fact : pystr) : Prop :=
  strip fact = fact /\ single_line fact.


(** A user's entry in the shape [ask] writes it. *)
Definition entry_of (facts : list pystr) : json :=
  JObject [(py "long", JArray (map JString facts))].

(** From [st] to [st'] the log has grown, at its end, by between [lo] and
    [hi] backend calls. *)
Definition asked `{P : Platform} (st st' : state) (lo hi : nat) : Prop :=
  exists new, calls st' = calls st ++ new /\ (lo <= length new <= hi)%nat.


(** The turns [ask] records. *)
Definition user_turn (message : pystr) : turn := mkTurn (py "user") message.

(** Sample stores: user 7 alone, with one turn and one fact. *)
Definition neighbour : bot :=
  mkBot {[ py "7" := [user_turn (py "hello")] ]}
        (JObject [(py "7", entry_of [py "Uses Linux"])])
        None.

Definition fresh : bot := mkBot ∅ (JObject []) None.

(** * Properties *)

Local Close Scope N_scope.

(** ** Strings *)

Lemma lstrip_app (a b : pystr) :
  lstrip (a ++ b) = match lstrip a with [] => lstrip b | _ :: _ => lstrip a ++ b end.
Proof.
  induction a as [|c a IH]; simpl.
  - destruct (lstrip b); reflexivity.
  - destruct (is_space c); [exact IH | reflexivity].
Qed.

Lemma lstrip_idem (s : pystr) : lstrip (lstrip s) = lstrip s.
Proof.
  induction s as [|c s IH]; simpl; [reflexivity |].
  destruct (is_space c) eqn:E; [exact IH | simpl; rewrite E; reflexivity].
Qed.

(** What [lstrip] leaves does not start with whitespace. *)
Lemma lstrip_head (s : pystr) c t : lstrip s = c :: t -> is_space c = false.
Proof.
  induction s as [|d s IH]; simpl; [discriminate |].
  destruct (is_space d) eqn:E; [exact IH | intros [= <- _]; exact E].
Qed.

Lemma lstrip_fixed (s : pystr) c t :
  s = c :: t -> is_space c = false -> lstrip s = s.
Proof. intros -> E. simpl. rewrite E. reflexivity. Qed.

Lemma rstrip_cons c (s : pystr) :
  rstrip (c :: s) =
  match rstrip s with
  | [] => if is_space c then [] else [c]
  | _ :: _ => c :: rstrip s
  end.
Proof.
  unfold rstrip. simpl rev. rewrite lstrip_app.
  destruct (lstrip (rev s)) as [|d t] eqn:E; simpl.
  - destruct (is_space c); reflexivity.
  - rewrite rev_app_distr. simpl.
    destruct (rev t ++ [d]) eqn:E'; [destruct (rev t); discriminate |].
    reflexivity.
Qed.

Lemma rstrip_idem (s : pystr) : rstrip (rstrip s) = rstrip s.
Proof.
  unfold rstrip. rewrite rev_involutive, lstrip_idem. reflexivity.
Qed.

(** [rstrip] keeps a first character that is not whitespace. *)
Lemma rstrip_head c (t : pystr) :
  is_space c = false -> exists t', rstrip (c :: t) = c :: t'.
Proof.
  intros E. rewrite rstrip_cons, E. destruct (rstrip t); eauto.
Qed.

Lemma lstrip_strip (s : pystr) : lstrip (strip s) = strip s.
Proof.
  unfold strip. destruct (lstrip s) as [|c t] eqn:E; [reflexivity |].
  destruct (rstrip_head c t (lstrip_head _ _ _ E)) as [t' ->].
  simpl. rewrite (lstrip_head _ _ _ E). reflexivity.
Qed.

Lemma strip_idem (s : pystr) : strip (strip s) = strip s.
Proof.
  unfold strip at 1. rewrite lstrip_strip. unfold strip. apply rstrip_idem.
Qed.

Lemma startswith_prefix (s p : pystr) :
  startswith s p = true <-> p `prefix_of` s.
Proof.
  revert s. induction p as [|d p IH]; intros s; simpl.
  - split; [intros _; apply prefix_nil | reflexivity].
  - destruct s as [|c s].
    + split; [discriminate | intros [k Hk]; discriminate].
    + rewrite andb_true_iff, N.eqb_eq, IH. split.
      * intros [-> Hp]. apply prefix_cons, Hp.
      * intros [k Hk]. injection Hk as -> ->. split; [reflexivity |].
        exists k. reflexivity.
Qed.

(** ** Short-term buffer *)

Lemma trim_short_term_drop {A} (b : list A) :
  trim_short_term b = drop (length b - 12) b.
Proof.
  unfold trim_short_term.
  change (- SHORT_TERM_TURNS * 2)%Z with (-12)%Z.
  unfold slice_from. change (-12 <? 0)%Z with true. cbv iota. f_equal. lia.
Qed.

(** C3: whatever the buffer, [trim_short_term] returns at most
    2 * SHORT_TERM_TURNS = 12 entries, and they are the last entries of the
    buffer in their order: the buffer is some older entries followed by the
    result, and nothing newer than an evicted entry is evicted. *)
Theorem trim_short_term_keeps_newest (b : list turn) :
  (Z.of_nat (length (trim_short_term b)) <= 2 * SHORT_TERM_TURNS)%Z
  /\ length (trim_short_term b) = Nat.min (length b) 12
  /\ trim_short_term b `suffix_of` b
  /\ b = take (length b - 12) b ++ trim_short_term b.
Proof.
  rewrite trim_short_term_drop. unfold SHORT_TERM_TURNS.
  rewrite length_drop. repeat split.
  - lia.
  - lia.
  - apply suffix_drop.
  - symmetry. apply take_drop.
Qed.

(** C10: trimming twice is trimming once, and a buffer of at most
    2 * SHORT_TERM_TURNS entries is returned as it is. *)
Theorem trim_short_term_idempotent (b : list turn) :
  trim_short_term (trim_short_term b) = trim_short_term b
  /\ ((Z.of_nat (length b) <= 2 * SHORT_TERM_TURNS)%Z -> trim_short_term b = b).
Proof.
  split.
  - rewrite (trim_short_term_drop (trim_short_term b)).
    rewrite trim_short_term_drop, length_drop.
    replace (length b - (length b - 12) - 12) with 0 by lia. reflexivity.
  - unfold SHORT_TERM_TURNS. intros Hlen. rewrite trim_short_term_drop.
    replace (length b - 12) with 0 by lia. reflexivity.
Qed.

(** ** Model gateway *)

Lemma lstrip_split (s : pystr) :
  exists lead, s = lead ++ lstrip s /\ Forall (fun c => is_space c = true) lead.
Proof.
  induction s as [|c s (lead & Hs & Hlead)]; [exists []; split; [reflexivity | constructor] |].
  simpl. destruct (is_space c) eqn:Hc.
  - exists (c :: lead). split; [simpl; f_equal; exact Hs |].
    constructor; assumption.
  - exists []. split; [reflexivity | constructor].
Qed.

Lemma rstrip_split (s : pystr) :
  exists trail, s = rstrip s ++ trail /\ Forall (fun c => is_space c = true) trail.
Proof.
  destruct (lstrip_split (rev s)) as (lead & Hs & Hlead).
  exists (rev lead). split; [| apply Forall_rev, Hlead].
  unfold rstrip. rewrite <- rev_app_distr, <- Hs, rev_involutive. reflexivity.
Qed.

(** [strip] removes whitespace, all of it, and only at the two ends. *)
Lemma strip_trimmed (text : pystr) : trimmed text (strip text).
Proof.
  split; [| split].
  - destruct (lstrip_split text) as (lead & Ht & Hlead).
    destruct (rstrip_split (lstrip text)) as (trail & Hl & Htrail).
    exists lead, trail. split; [| split; assumption].
    unfold strip. rewrite <- Hl. exact Ht.
  - intros c rest Hhead.
    apply (lstrip_head (strip text) c rest). rewrite lstrip_strip. exact Hhead.
  - intros c rest Hlast.
    apply (lstrip_head (rev (lstrip text)) c (rev rest)).
    apply (f_equal (@rev codepoint)) in Hlast.
    unfold strip, rstrip in Hlast.
    rewrite rev_involutive, rev_app_distr in Hlast. exact Hlast.
Qed.

Section Gateway.
Context `{P : Platform}.

Lemma attempts_length models prompt :
  length (attempts models prompt) = length models.
Proof. apply length_map. Qed.

(** No [APIError] has a [status_code]. *)
Lemma status_code_missing (e : APIError) :
  getattr e "status_code" = Raised (AttributeError "status_code").
Proof. reflexivity. Qed.

(** One turn of the loop decides every call: the first model is asked, and
    its answer, or the exception of the handler, ends the call. *)
Lemma call_model_from_first model rest prompt (st : state) r w :
  send_message model prompt (world st) = (r, w) ->
  call_model_from (model :: rest) prompt st
  = (match r with
     | Returned text => Returned (strip text)
     | Raised (ClientError _) => Raised (AttributeError "status_code")
     | Raised e => Raised e
     end,
     mkState P w (calls st ++ [(model, prompt)])).
Proof.
  intros Hsend. cbn [call_model_from]. rewrite Hsend.
  destruct r as [text | [err | name | | key | what]]; reflexivity.
Qed.

Lemma call_model_first prompt (st : state) r w :
  send_message FIRST_MODEL prompt (world st) = (r, w) ->
  call_model prompt st
  = (match r with
     | Returned text => Returned (strip text)
     | Raised (ClientError _) => Raised (AttributeError "status_code")
     | Raised e => Raised e
     end,
     mkState P w (calls st ++ [(FIRST_MODEL, prompt)])).
Proof. apply call_model_from_first. Qed.

(** C1 on the code.  When the first backend answers (N = 0) the claim
    holds: [call_model] returns that answer without its surrounding
    whitespace after exactly one call.  When the first backend signals
    capacity exhaustion, or raises any other [ClientError], the handler's
    [e.status_code] raises [AttributeError]: there is no second call, no
    answer of a later backend and no sentinel, against the claim for
    N >= 1 and for the case where every backend is exhausted. *)
Theorem call_model_no_fallback prompt (st : state) :
  (forall text w,
      send_message FIRST_MODEL prompt (world st) = (Returned text, w) ->
      exists result,
        call_model prompt st
        = (Returned result, mkState P w (calls st ++ [(FIRST_MODEL, prompt)]))
        /\ trimmed text result
        /\ length (calls st ++ [(FIRST_MODEL, prompt)]) = length (calls st) + 1)
  /\ (forall err w,
         send_message FIRST_MODEL prompt (world st)
         = (Raised (ClientError err), w) ->
         call_model prompt st
         = (Raised (AttributeError "status_code"),
            mkState P w (calls st ++ [(FIRST_MODEL, prompt)]))).
Proof.
  split.
  - intros text w Hsend. exists (strip text).
    rewrite (call_model_first _ _ _ _ Hsend).
    split; [reflexivity |]. split; [apply strip_trimmed |].
    rewrite length_app. reflexivity.
  - intros err w Hsend. rewrite (call_model_first _ _ _ _ Hsend). reflexivity.
Qed.

Lemma MODELS_NoDup : NoDup MODELS.
Proof. compute_done. Qed.

(** C2 on the code.  An exception of the first backend that is not a
    [ClientError] is raised by [call_model] as it is, after that one call,
    and no later model is asked: so far the claim holds.  A [ClientError],
    whatever its code, is not: the handler's [e.status_code] raises
    [AttributeError], and that is what the caller receives; no later model
    is asked either. *)
Theorem call_model_propagates prompt (st : state) :
  (forall e w,
      send_message FIRST_MODEL prompt (world st) = (Raised e, w) ->
      (forall err, e <> ClientError err) ->
      call_model prompt st
      = (Raised e, mkState P w (calls st ++ [(FIRST_MODEL, prompt)])))
  /\ (forall err w,
         send_message FIRST_MODEL prompt (world st)
         = (Raised (ClientError err), w) ->
         call_model prompt st
         = (Raised (AttributeError "status_code"),
            mkState P w (calls st ++ [(FIRST_MODEL, prompt)]))
         /\ AttributeError "status_code" <> ClientError err)
  /\ (forall later,
         later ∈ tail MODELS -> (later, prompt) ∉ [(FIRST_MODEL, prompt)]).
Proof.
  split; [| split].
  - intros e w Hsend Hother. rewrite (call_model_first _ _ _ _ Hsend).
    destruct e as [err | name | | key | what]; try reflexivity.
    destruct (Hother err). reflexivity.
  - intros err w Hsend. rewrite (call_model_first _ _ _ _ Hsend).
    split; [reflexivity | discriminate].
  - intros later Hin Hcalled.
    apply list_elem_of_singleton in Hcalled. injection Hcalled as ->.
    pose proof MODELS_NoDup as Hnd. change MODELS with (FIRST_MODEL :: tail MODELS) in Hnd.
    apply NoDup_cons in Hnd as [Hfirst _]. exact (Hfirst Hin).
Qed.

End Gateway.

(** ** Parsing a reply *)

Lemma slice_from_bullet (rest : pystr) : slice_from 2 (BULLET ++ rest) = rest.
Proof.
  unfold slice_from. change (2 <? 0)%Z with false. cbv iota.
  change (length (BULLET ++ rest)) with (S (S (length rest))).
  replace (Z.to_nat (Z.min 2 (Z.of_nat (S (S (length rest)))))) with 2 by lia.
  reflexivity.
Qed.

Lemma fact_of_bullet (rest : pystr) :
  fact_of_line (BULLET ++ rest) = [strip rest].
Proof.
  unfold fact_of_line.
  replace (startswith (BULLET ++ rest) BULLET) with true.
  - rewrite slice_from_bullet. reflexivity.
  - symmetry. apply startswith_prefix. exists rest. reflexivity.
Qed.

Lemma fact_of_other (line : pystr) :
  ~ BULLET `prefix_of` line -> fact_of_line line = [].
Proof.
  intros Hno. unfold fact_of_line.
  destruct (startswith line BULLET) eqn:E; [| reflexivity].
  apply startswith_prefix in E. contradiction.
Qed.

Lemma facts_of_lines_parse (lines : list pystr) :
  facts_of_lines lines (flat_map fact_of_line lines).
Proof.
  induction lines as [|line lines IH]; simpl; [constructor |].
  destruct (startswith line BULLET) eqn:E.
  - apply startswith_prefix in E as [rest ->].
    rewrite fact_of_bullet. simpl. constructor. exact IH.
  - rewrite fact_of_other.
    + simpl. apply facts_skip; [| exact IH].
      intros Hp. apply startswith_prefix in Hp. congruence.
    + intros Hp. apply startswith_prefix in Hp. congruence.
Qed.

Lemma facts_of_lines_unique (lines facts : list pystr) :
  facts_of_lines lines facts -> facts = flat_map fact_of_line lines.
Proof.
  induction 1 as [| rest lines facts _ IH | line lines facts Hno _ IH];
    cbn [flat_map].
  - reflexivity.
  - rewrite fact_of_bullet, IH. reflexivity.
  - rewrite (fact_of_other _ Hno), IH. reflexivity.
Qed.

Lemma parse_bullets_length (result : pystr) :
  length (parse_bullets result) = length (bullet_lines result).
Proof.
  unfold parse_bullets, bullet_lines.
  induction (splitlines result) as [|line lines IH]; [reflexivity |].
  rewrite filter_cons. cbn [flat_map]. rewrite length_app, IH.
  unfold fact_of_line. destruct (startswith line BULLET) eqn:E.
  - rewrite decide_True by reflexivity. reflexivity.
  - rewrite decide_False by discriminate. reflexivity.
Qed.

Lemma parse_bullets_carries (result fact : pystr) :
  fact ∈ parse_bullets result <-> carries result fact.
Proof.
  unfold parse_bullets, carries.
  rewrite list_elem_of_In, in_flat_map. split.
  - intros (line & Hin & Hfact). apply list_elem_of_In in Hin.
    unfold fact_of_line in Hfact.
    destruct (startswith line BULLET) eqn:E; [| destruct Hfact].
    apply startswith_prefix in E as [rest ->].
    rewrite slice_from_bullet in Hfact. destruct Hfact as [<- | []].
    exists rest. split; [exact Hin | reflexivity].
  - intros (rest & Hin & <-). exists (BULLET ++ rest).
    split; [apply list_elem_of_In, Hin |].
    rewrite fact_of_bullet. left. reflexivity.
Qed.

(** ** Curator and relevance filter *)

Section Curator.
Context `{P : Platform}.

Lemma update_memories_run user_message existing (st st' : state) result :
  call_model (update_prompt user_message existing) st
  = (Returned result, st') ->
  update_memories user_message existing st
  = (Returned (if is_none result then existing else parse_bullets result),
     st').
Proof.
  intros Hcall. unfold update_memories, bind. rewrite Hcall.
  destruct (is_none result); reflexivity.
Qed.

Lemma get_relevant_memories_run user_message long_term
    (st st' : state) result :
  long_term <> [] ->
  call_model (relevance_prompt user_message long_term) st
  = (Returned result, st') ->
  get_relevant_memories user_message long_term st
  = (Returned (if is_none result then [] else parse_bullets result), st').
Proof.
  intros Hne Hcall. destruct long_term as [|fact facts]; [congruence |].
  unfold get_relevant_memories, bind. rewrite Hcall.
  destruct (is_none result); reflexivity.
Qed.

Lemma is_none_true (result : pystr) :
  is_none result = true <-> upper (strip result) = py "NONE".
Proof. unfold is_none, pystr_eqb. apply bool_decide_eq_true. Qed.

(** The signal is read without regard to case. *)
Lemma upper_case_variant (s : pystr) :
  case_variant s NONE -> upper s = NONE.
Proof.
  intros H. unfold case_variant in H.
  change NONE with [78; 79; 78; 69]%N in H.
  repeat match goal with
         | H : Forall2 _ _ (_ :: _) |- _ =>
             apply Forall2_cons_inv_r in H as (? & ? & ? & H & ->)
         | H : Forall2 _ _ [] |- _ => apply Forall2_nil_inv_r in H as ->
         end.
  repeat match goal with H : _ \/ _ |- _ => destruct H as [-> | ->] end;
    reflexivity.
Qed.

(** C4: when the reply [call_model] hands to [update_memories] is, once
    stripped and put in upper case, the word NONE, the existing facts come
    back unchanged, whatever they are; this covers the text of the backend
    that answers, which the gateway strips before handing it on. *)
Theorem update_memories_none user_message existing (st : state) :
  (forall result st',
      call_model (update_prompt user_message existing) st
      = (Returned result, st') ->
      upper (strip result) = py "NONE" ->
      update_memories user_message existing st = (Returned existing, st'))
  /\ (forall text w,
         send_message FIRST_MODEL (update_prompt user_message existing)
           (world st)
         = (Returned text, w) ->
         upper (strip text) = py "NONE" ->
         exists st',
           update_memories user_message existing st
           = (Returned existing, st')).
Proof.
  split.
  - intros result st' Hcall Hnone.
    rewrite (update_memories_run _ _ _ _ _ Hcall).
    apply is_none_true in Hnone. rewrite Hnone. reflexivity.
  - intros text w Hsend Hnone.
    pose proof (call_model_first _ _ _ _ Hsend) as Hcall.
    eexists. rewrite (update_memories_run _ _ _ _ _ Hcall).
    replace (is_none (strip text)) with true; [reflexivity |].
    symmetry. apply is_none_true. rewrite strip_idem. exact Hnone.
Qed.

(** C5: the facts read from a reply are the lines of the reply that begin
    with the bullet marker, in order, each without the marker and without
    surrounding whitespace, and no other line contributes; the parsing
    never fails.  Both [update_memories] and [get_relevant_memories]
    return exactly these facts for a reply that is not the NONE signal. *)
Theorem bullet_parsing :
  (forall result,
      facts_of_lines (splitlines result) (parse_bullets result)
      /\ forall facts,
           facts_of_lines (splitlines result) facts ->
           facts = parse_bullets result)
  /\ parse_bullets (py "- Likes tea" ++ [NL] ++ py "- Uses Linux")
     = [py "Likes tea"; py "Uses Linux"]
  /\ parse_bullets (py "- Likes tea" ++ [NL] ++ py "Here you go:" ++ [NL]
                    ++ py "- Uses Linux")
     = [py "Likes tea"; py "Uses Linux"]
  /\ (forall result,
         (forall line, line ∈ splitlines result -> ~ BULLET `prefix_of` line) ->
         parse_bullets result = [])
  /\ (forall user_message existing (st st' : state) result,
         call_model (update_prompt user_message existing) st
         = (Returned result, st') ->
         is_none result = false ->
         update_memories user_message existing st
         = (Returned (parse_bullets result), st'))
  /\ (forall user_message long_term (st st' : state) result,
         long_term <> [] ->
         call_model (relevance_prompt user_message long_term) st
         = (Returned result, st') ->
         is_none result = false ->
         get_relevant_memories user_message long_term st
         = (Returned (parse_bullets result), st')).
Proof.
  split; [| split; [| split; [| split; [| split]]]].
  - intros result. split.
    + apply facts_of_lines_parse.
    + apply facts_of_lines_unique.
  - reflexivity.
  - reflexivity.
  - intros result Hno. unfold parse_bullets.
    induction (splitlines result) as [|line lines IH]; [reflexivity |].
    cbn [flat_map]. rewrite fact_of_other, IH; [reflexivity | |].
    + intros l Hl. apply Hno. right. exact Hl.
    + apply Hno. left.
  - intros user_message existing st st' result Hcall Hsig.
    rewrite (update_memories_run _ _ _ _ _ Hcall), Hsig. reflexivity.
  - intros user_message long_term st st' result Hne Hcall Hsig.
    rewrite (get_relevant_memories_run _ _ _ _ _ Hne Hcall), Hsig.
    reflexivity.
Qed.

(** C6: with no facts, [get_relevant_memories] returns the empty list and
    leaves the backend and the call log as they were: the gateway is not
    invoked. *)
Theorem get_relevant_memories_empty user_message (st : state) :
  get_relevant_memories user_message [] st = (Returned [], st)
  /\ calls (snd (get_relevant_memories user_message [] st)) = calls st.
Proof. split; reflexivity. Qed.

(** C7, as the code has it: the curator returns the existing facts on the
    NONE signal and the bullet lines of the reply otherwise.  So the
    result has at most 20 facts when, on the NONE signal, the existing
    list has at most 20, or, otherwise, the reply has at most 20 bullet
    lines; and a pinned fact that was present is present, unmodified, when
    the reply is the NONE signal or carries that fact as a bullet line. *)
Theorem update_memories_cap_and_pins
    user_message existing (st st' : state) result :
  call_model (update_prompt user_message existing) st
  = (Returned result, st') ->
  exists facts,
    update_memories user_message existing st = (Returned facts, st')
    /\ facts = (if is_none result then existing else parse_bullets result)
    /\ ((if is_none result then length existing <= 20
         else length (bullet_lines result) <= 20) ->
        length facts <= 20)
    /\ (forall fact,
           fact ∈ existing -> pinned fact ->
           is_none result = true \/ carries result fact ->
           fact ∈ facts).
Proof.
  intros Hcall. eexists. split; [exact (update_memories_run _ _ _ _ _ Hcall) |].
  split; [reflexivity |].
  destruct (is_none result) eqn:Hsig; split.
  - trivial.
  - intros fact Hin _ _. exact Hin.
  - rewrite parse_bullets_length. trivial.
  - intros fact _ _ [Hn | Hc]; [discriminate |].
    apply parse_bullets_carries, Hc.
Qed.

End Curator.

(** ** The NONE signal under padding and case *)

Lemma lstrip_spaces (ws x : pystr) :
  Forall (fun c => is_space c = true) ws -> lstrip (ws ++ x) = lstrip x.
Proof.
  induction 1 as [|c ws Hc _ IH]; [reflexivity |].
  simpl. rewrite Hc. exact IH.
Qed.

Lemma rstrip_spaces (ws x : pystr) :
  Forall (fun c => is_space c = true) ws -> rstrip (x ++ ws) = rstrip x.
Proof.
  intros Hws. unfold rstrip. rewrite rev_app_distr, lstrip_spaces; [reflexivity |].
  apply Forall_rev, Hws.
Qed.

Lemma strip_padding (ws1 ws2 s : pystr) c t :
  Forall (fun c => is_space c = true) ws1 ->
  Forall (fun c => is_space c = true) ws2 ->
  s = c :: t -> is_space c = false -> rstrip s = s ->
  strip (ws1 ++ s ++ ws2) = s.
Proof.
  intros H1 H2 Hs Hc Hr. unfold strip.
  rewrite (lstrip_spaces _ _ H1).
  rewrite (lstrip_fixed (s ++ ws2) c (t ++ ws2)); [| rewrite Hs; reflexivity | exact Hc].
  rewrite (rstrip_spaces _ _ H2). exact Hr.
Qed.

(** X14: the NONE signal is recognised in any mix of upper and lower case
    and with any whitespace around it: such a reply always counts as no
    update for the curator and as nothing relevant for the filter. *)
Lemma is_none_padded `{P : Platform} (ws1 ws2 s : pystr) :
  Forall (fun c => is_space c = true) ws1 ->
  Forall (fun c => is_space c = true) ws2 ->
  case_variant s NONE ->
  is_none (ws1 ++ s ++ ws2) = true.
Proof.
  intros H1 H2 Hs. unfold is_none, pystr_eqb. apply bool_decide_eq_true.
  assert (strip (ws1 ++ s ++ ws2) = s) as ->; [| apply upper_case_variant, Hs].
  unfold case_variant in Hs. change NONE with [78; 79; 78; 69]%N in Hs.
  repeat match goal with
         | H : Forall2 _ _ (_ :: _) |- _ =>
             apply Forall2_cons_inv_r in H as (? & ? & ? & H & ->)
         | H : Forall2 _ _ [] |- _ => apply Forall2_nil_inv_r in H as ->
         end.
  repeat match goal with H : _ \/ _ |- _ => destruct H as [-> | ->] end;
    (eapply strip_padding; [exact H1 | exact H2 | reflexivity ..]).
Qed.

(** ** Reply length *)


Lemma discord_limit_length (reply : pystr) :
  (Z.of_nat (length (discord_limit reply)) <= 2000)%Z.
Proof.
  unfold discord_limit.
  destruct (Z.ltb_spec 2000 (Z.of_nat (length reply))) as [Hlong | Hshort];
    [| exact Hshort].
  unfold slice_to. change (1997 <? 0)%Z with false. cbv iota.
  rewrite length_app, length_take.
  change (length (py "...")) with 3. lia.
Qed.

(** What [ask] sends is the gateway's reply to the composed prompt, cut to
    the limit. *)
Lemma ask_sends_limited `{P : Platform} user_id message b (st : state) sent b' st' :
  ask user_id message b st = (Returned sent, b', st') ->
  (exists prompt st2 reply,
      call_model prompt st2 = (Returned reply, st')
      /\ sent = discord_limit reply)
  /\ (Z.of_nat (length sent) <= 2000)%Z.
Proof.
  unfold ask. cbv zeta.
  destruct (contains _ _) as [present | e]; [| discriminate].
  destruct (if present then _ else _) as [memories | e]; [| discriminate].
  destruct (getitem memories user_id) as [entry | e]; [| discriminate].
  destruct (getitem entry _) as [long | e]; [| discriminate].
  destruct (update_memories_value _ _ st) as [[long' | e] st1]; [| discriminate].
  destruct (setitem entry _ long') as [entry' | e]; [| discriminate].
  destruct (setitem memories _ entry') as [memories' | e]; [| discriminate].
  destruct (iter_strs long') as [items | e]; [| discriminate].
  destruct (build_prompt _ _ st1) as [[prompt | e] st2]; [| discriminate].
  destruct (call_model prompt st2) as [[reply | e] st3] eqn:Hcall;
    [| discriminate].
  intros [= <- _ <-]. split.
  - exists prompt, st2, reply. split; [exact Hcall | reflexivity].
  - apply discord_limit_length.
Qed.

(** ** Memory file *)

(** C9: [load_memories] returns in every case and never raises: the empty
    mapping when the file is missing, cannot be read, is empty or blank, or
    is refused by the JSON parser, and otherwise what the parser makes of
    the stripped content. *)
Theorem load_memories_total `{P : Platform} (f : file) :
  (exists v, load_memories f = Returned v)
  /\ (f = Missing -> load_memories f = Returned (JObject []))
  /\ (f = Unreadable -> load_memories f = Returned (JObject []))
  /\ (forall text,
         f = Contents text -> strip text = [] ->
         load_memories f = Returned (JObject []))
  /\ (forall text,
         f = Contents text -> json_loads (strip text) = None ->
         load_memories f = Returned (JObject []))
  /\ (forall text v,
         f = Contents text -> strip text <> [] ->
         json_loads (strip text) = Some v ->
         load_memories f = Returned v).
Proof.
  split; [| split; [| split; [| split; [| split]]]].
  - destruct f as [| | text]; unfold load_memories; simpl; eauto.
    destruct (strip text); simpl; eauto.
    destruct (json_loads _); simpl; eauto.
  - intros ->. reflexivity.
  - intros ->. reflexivity.
  - intros text -> Hblank. unfold load_memories. simpl. rewrite Hblank.
    reflexivity.
  - intros text -> Hbad. unfold load_memories. simpl.
    destruct (strip text); [reflexivity |]. rewrite Hbad. reflexivity.
  - intros text v -> Hne Hok. unfold load_memories. simpl.
    destruct (strip text); [congruence |]. rewrite Hok. reflexivity.
Qed.

(** ** The properties at work on the test double *)

Example splitlines_boundaries :
  splitlines (py "a" ++ [CR; NL] ++ py "b" ++ [NL; NL] ++ py "c" ++ [NL])
  = [py "a"; py "b"; []; py "c"].
Proof. reflexivity. Qed.

Example strip_both_ends :
  strip ([32; 9]%N ++ py "a b" ++ [NL; 160%N]) = py "a b".
Proof. reflexivity. Qed.

Example update_prompt_without_memories :
  take 61 (update_prompt (py "hi") [])
  = [NL] ++ py "You are a LONG-TERM MEMORY FILTER." ++ [NL; NL]
    ++ py "Existing memories:" ++ [NL] ++ py "NONE" ++ [NL].
Proof. reflexivity. Qed.

Lemma call_model_no_fallback_witness :
  (exists result,
      call_model (py "hi") (start (answers TEA_REPLY) 0)
      = (Returned result,
         mkState (answers TEA_REPLY) 1 [(FIRST_MODEL, py "hi")])
      /\ trimmed TEA_REPLY result)
  /\ call_model (py "hi") (start first_exhausted 0)
     = (Raised (AttributeError "status_code"),
        mkState first_exhausted 1 [(FIRST_MODEL, py "hi")])
  /\ call_model (py "hi") (start all_exhausted 0)
     = (Raised (AttributeError "status_code"),
        mkState all_exhausted 1 [(FIRST_MODEL, py "hi")]).
Proof.
  split; [| split].
  - destruct (call_model_no_fallback (P := answers TEA_REPLY)
                (py "hi") (start (answers TEA_REPLY) 0)) as [Hanswer _].
    destruct (Hanswer TEA_REPLY 1 eq_refl) as (result & Hrun & Htrim & _).
    exists result. split; [exact Hrun | exact Htrim].
  - destruct (call_model_no_fallback (P := first_exhausted)
                (py "hi") (start first_exhausted 0)) as [_ Hrefused].
    exact (Hrefused QUOTA 1 eq_refl).
  - destruct (call_model_no_fallback (P := all_exhausted)
                (py "hi") (start all_exhausted 0)) as [_ Hrefused].
    exact (Hrefused QUOTA 1 eq_refl).
Defined.

Lemma call_model_propagates_witness :
  call_model (py "hi") (start disconnected 0)
  = (Raised (OtherError "ConnectionError"),
     mkState disconnected 1 [(FIRST_MODEL, py "hi")])
  /\ call_model (py "hi") (start all_forbidden 0)
     = (Raised (AttributeError "status_code"),
        mkState all_forbidden 1 [(FIRST_MODEL, py "hi")]).
Proof.
  split.
  - destruct (call_model_propagates (P := disconnected)
                (py "hi") (start disconnected 0)) as [Hother _].
    apply (Hother (OtherError "ConnectionError") 1 eq_refl).
    discriminate.
  - destruct (call_model_propagates (P := all_forbidden)
                (py "hi") (start all_forbidden 0)) as (_ & Hclient & _).
    destruct (Hclient FORBIDDEN 1 eq_refl) as [Hrun _]. exact Hrun.
Defined.

Lemma update_memories_none_witness :
  upper (P := answers (py " none" ++ [NL])) (strip (py "none")) = py "NONE"
  /\ exists st',
       update_memories (py "How are you?") [py "Likes tea"]
         (start (answers (py " none" ++ [NL])) 0)
       = (Returned [py "Likes tea"], st').
Proof.
  split; [reflexivity |].
  destruct (update_memories_none (P := answers (py " none" ++ [NL]))
              (py "How are you?") [py "Likes tea"]
              (start (answers (py " none" ++ [NL])) 0)) as [Hsame _].
  eexists. apply (Hsame (py "none")); reflexivity.
Defined.

Lemma bullet_parsing_witness :
  is_none (P := answers TEA_REPLY) (strip TEA_REPLY) = false
  /\ (exists st',
         update_memories (py "I like tea and use Linux") []
           (start (answers TEA_REPLY) 0)
         = (Returned [py "Likes tea"; py "Uses Linux"], st'))
  /\ (exists st',
         get_relevant_memories (py "What do I drink?") [py "Likes tea"]
           (start (answers TEA_REPLY) 0)
         = (Returned [py "Likes tea"; py "Uses Linux"], st')).
Proof.
  destruct (bullet_parsing (P := answers TEA_REPLY))
    as (_ & _ & _ & _ & Hupdate & Hfilter).
  split; [reflexivity |]. split.
  - eexists.
    apply (Hupdate (py "I like tea and use Linux") []
             (start (answers TEA_REPLY) 0) _ (strip TEA_REPLY));
      reflexivity.
  - eexists.
    apply (Hfilter (py "What do I drink?") [py "Likes tea"]
             (start (answers TEA_REPLY) 0) _ (strip TEA_REPLY));
      [discriminate | reflexivity | reflexivity].
Defined.

(** C7 as worded fails on the code: a reply of 21 bullet lines, none of
    them the pinned fact, is returned as 21 facts, and the pinned fact is
    gone. *)
Lemma curation_invariant_counterexample :
  update_memories (py "hello") [PINNED_FACT] (start (answers CROWDED_REPLY) 0)
  = (Returned (replicate 21 (py "Likes tea")),
     mkState (answers CROWDED_REPLY) 1
       [("gemma-3-27b-it"%string, update_prompt (py "hello") [PINNED_FACT])])
  /\ ~ (length (replicate 21 (py "Likes tea")) <= 20)
  /\ PINNED_FACT ∈ [PINNED_FACT]
  /\ pinned PINNED_FACT
  /\ (PINNED_FACT ∉ replicate 21 (py "Likes tea"))
  /\ ~ curation_invariant.
Proof.
  assert (update_memories (py "hello") [PINNED_FACT]
            (start (answers CROWDED_REPLY) 0)
          = (Returned (replicate 21 (py "Likes tea")),
             mkState (answers CROWDED_REPLY) 1
               [("gemma-3-27b-it"%string,
                 update_prompt (py "hello") [PINNED_FACT])])) as Hrun
    by (vm_compute; reflexivity).
  assert (~ (length (replicate 21 (py "Likes tea")) <= 20)) as Hlen
    by (rewrite length_replicate; lia).
  split; [exact Hrun |]. split; [exact Hlen |].
  split; [left |]. split; [exists [], (py ": name is Alex"); reflexivity |].
  split.
  - intros Hin. apply elem_of_replicate in Hin as [Heq _]. discriminate.
  - intros Hinv. destruct (Hinv _ _ _ _ _ _ Hrun) as [Hcap _].
    exact (Hlen Hcap).
Qed.

Lemma update_memories_cap_and_pins_witness :
  exists facts st',
    update_memories (py "I like tea") [PINNED_FACT]
      (start (answers (py "- Likes tea" ++ [NL] ++ BULLET ++ PINNED_FACT)) 0)
    = (Returned facts, st')
    /\ length facts <= 20
    /\ PINNED_FACT ∈ facts.
Proof.
  destruct (update_memories_cap_and_pins
              (P := answers (py "- Likes tea" ++ [NL] ++ BULLET ++ PINNED_FACT))
              (py "I like tea") [PINNED_FACT]
              (start (answers (py "- Likes tea" ++ [NL] ++ BULLET ++ PINNED_FACT)) 0)
              _ (py "- Likes tea" ++ [NL] ++ BULLET ++ PINNED_FACT) eq_refl)
    as (facts & Hrun & _ & Hcap & Hpin).
  exists facts. eexists. split; [exact Hrun |]. split.
  - apply Hcap. vm_compute. lia.
  - apply Hpin.
    + left.
    + exists [], (py ": name is Alex"). reflexivity.
    + right. exists PINNED_FACT. split; [| reflexivity].
      right. left.
Defined.


Lemma load_memories_total_witness :
  load_memories (P := answers []) Missing = Returned (JObject [])
  /\ load_memories (P := answers []) Unreadable = Returned (JObject [])
  /\ load_memories (P := answers []) (Contents [32%N; NL]) = Returned (JObject [])
  /\ load_memories (P := answers []) (Contents (py "{oops")) = Returned (JObject [])
  /\ load_memories (P := answers []) (Contents (SAMPLE_DOCUMENT ++ [NL]))
     = Returned SAMPLE_MAPPING.
Proof.
  split; [| split; [| split; [| split]]].
  - destruct (load_memories_total (P := answers []) Missing)
      as (_ & H & _). apply H. reflexivity.
  - destruct (load_memories_total (P := answers []) Unreadable)
      as (_ & _ & H & _). apply H. reflexivity.
  - destruct (load_memories_total (P := answers []) (Contents [32%N; NL]))
      as (_ & _ & _ & H & _). apply (H [32%N; NL]); reflexivity.
  - destruct (load_memories_total (P := answers []) (Contents (py "{oops")))
      as (_ & _ & _ & _ & H & _). apply (H (py "{oops")); reflexivity.
  - destruct (load_memories_total (P := answers [])
                (Contents (SAMPLE_DOCUMENT ++ [NL])))
      as (_ & _ & _ & _ & _ & H).
    apply (H (SAMPLE_DOCUMENT ++ [NL])); [reflexivity | discriminate | reflexivity].
Defined.

Lemma trim_short_term_idempotent_witness :
  trim_short_term [mkTurn (py "user") (py "hi"); mkTurn (py "assistant") (py "hello")]
  = [mkTurn (py "user") (py "hi"); mkTurn (py "assistant") (py "hello")].
Proof.
  apply (trim_short_term_idempotent
           [mkTurn (py "user") (py "hi"); mkTurn (py "assistant") (py "hello")]).
  vm_compute. discriminate.
Defined.

Example trim_short_term_evicts_oldest :
  trim_short_term (seq 1 15) = seq 4 12.
Proof. reflexivity. Qed.

(** One request of a new user against a backend that always answers
    [TEA_REPLY]: three gateway calls (curator, relevance filter, reply), the
    facts saved, both turns in the buffer. *)
Example ask_first_request :
  let '(sent, b, st) :=
    ask (py "42") (py "I like tea") fresh (start (answers TEA_REPLY) 0) in
  sent = Returned (strip TEA_REPLY)
  /\ length (calls st) = 3
  /\ last_saved b
     = Some (JObject [(py "42", entry_of [py "Likes tea"; py "Uses Linux"])])
  /\ user_sessions b !! py "42"
     = Some [mkTurn (py "user") (py "I like tea");
             mkTurn (py "assistant") (strip TEA_REPLY)].
Proof. vm_compute. repeat split. Qed.

(** A store that is valid JSON but not a mapping stops the request before
    anything is recorded or asked. *)
Example ask_with_null_store :
  ask (py "42") (py "I like tea") (mkBot ∅ JNull None)
    (start (answers TEA_REPLY) 0)
  = (Raised TypeError, mkBot {[ py "42" := [] ]} JNull None,
     start (answers TEA_REPLY) 0).
Proof. vm_compute. reflexivity. Qed.

Example ask_with_entry_without_long :
  (ask (py "42") (py "I like tea")
     (mkBot ∅ (JObject [(py "42", JObject [])]) None)
     (start (answers TEA_REPLY) 0)).1.1
  = Raised (KeyError (py "long")).
Proof. vm_compute. reflexivity. Qed.

(** * Further properties of the code *)

(** ** Lines and bullet lists *)

(** Induction over a string that also reaches the tail of the tail, as the
    CR LF case of [splitlines_from] does. *)
Lemma pystr_lookahead_ind (Q : pystr -> Prop) :
  Q [] ->
  (forall c rest,
      Q rest -> (forall d rest', rest = d :: rest' -> Q rest') ->
      Q (c :: rest)) ->
  forall s, Q s.
Proof.
  intros Hnil Hcons s.
  enough (Q s /\ forall d rest', s = d :: rest' -> Q rest') as [H _] by exact H.
  induction s as [|c rest [IH1 IH2]].
  - split; [exact Hnil | discriminate].
  - split; [apply Hcons; assumption |].
    intros d rest' [= _ <-]. exact IH1.
Qed.

Lemma splitlines_from_single_line (s acc : pystr) :
  single_line acc -> Forall single_line (splitlines_from acc s).
Proof.
  revert acc. induction s as [| c rest IH1 IH2] using pystr_lookahead_ind;
    intros acc Hacc.
  - destruct acc; [constructor | constructor; [exact Hacc | constructor]].
  - cbn [splitlines_from]. destruct (is_linebreak c) eqn:Hc.
    + constructor; [exact Hacc |].
      destruct rest as [|d rest']; [apply IH1; constructor |].
      destruct ((c =? CR)%N && (d =? NL)%N).
      * apply (IH2 d rest' eq_refl). constructor.
      * apply IH1. constructor.
    + apply IH1. apply Forall_app. split; [exact Hacc |].
      constructor; [exact Hc | constructor].
Qed.

Lemma splitlines_single_line (s : pystr) : Forall single_line (splitlines s).
Proof. apply splitlines_from_single_line. constructor. Qed.

(** Characters that are not line boundaries extend the pending line. *)
Lemma splitlines_from_app (line acc rest : pystr) :
  single_line line ->
  splitlines_from acc (line ++ rest) = splitlines_from (acc ++ line) rest.
Proof.
  intros Hline. revert acc.
  induction Hline as [|c line Hc _ IH]; intros acc.
  - rewrite app_nil_r. reflexivity.
  - cbn [app splitlines_from]. rewrite Hc, IH, <- app_assoc. reflexivity.
Qed.

Lemma splitlines_from_NL (acc rest : pystr) :
  splitlines_from acc (NL :: rest) = acc :: splitlines_from [] rest.
Proof. destruct rest; reflexivity. Qed.

(** Joining non-empty single lines by newlines and splitting again gives
    the lines back. *)
Lemma splitlines_join (lines : list pystr) :
  Forall (fun line => line <> [] /\ single_line line) lines ->
  splitlines (join [NL] lines) = lines.
Proof.
  unfold splitlines.
  induction 1 as [|line lines [Hne Hline] Hrest IH]; [reflexivity |].
  destruct lines as [|next lines].
  - cbn [join]. pose proof (splitlines_from_app line [] [] Hline) as Hrun.
    rewrite app_nil_r in Hrun. rewrite Hrun.
    cbn [app splitlines_from]. destruct line; [congruence | reflexivity].
  - change (join [NL] (line :: next :: lines))
      with (line ++ NL :: join [NL] (next :: lines)).
    rewrite (splitlines_from_app _ _ _ Hline), splitlines_from_NL, IH.
    reflexivity.
Qed.

Lemma lstrip_Forall (Q : codepoint -> Prop) (s : pystr) :
  Forall Q s -> Forall Q (lstrip s).
Proof.
  induction 1 as [|c s Hc Hs IH]; simpl; [constructor |].
  destruct (is_space c); [exact IH | constructor; assumption].
Qed.

Lemma strip_Forall (Q : codepoint -> Prop) (s : pystr) :
  Forall Q s -> Forall Q (strip s).
Proof.
  intros H. unfold strip, rstrip.
  apply Forall_rev, lstrip_Forall, Forall_rev, lstrip_Forall, H.
Qed.

Lemma slice_from_Forall {A} (Q : A -> Prop) start (l : list A) :
  Forall Q l -> Forall Q (slice_from start l).
Proof. intros H. unfold slice_from. apply Forall_drop, H. Qed.

(** X1: every fact read from a reply is stripped and free of line
    boundaries, and there are no more facts than lines. *)
Theorem parse_bullets_clean (result : pystr) :
  Forall clean_fact (parse_bullets result)
  /\ length (parse_bullets result) <= length (splitlines result).
Proof.
  unfold parse_bullets.
  pose proof (splitlines_single_line result) as Hlines.
  induction Hlines as [|line lines Hline _ [IH1 IH2]];
    [split; [constructor | reflexivity] |].
  cbn [flat_map]. rewrite length_app. unfold fact_of_line at 1 3.
  destruct (startswith line BULLET); cbn [app length]; split;
    try exact IH1; try lia.
  constructor; [| exact IH1]. split; [apply strip_idem |].
  apply strip_Forall, slice_from_Forall, Hline.
Qed.

Lemma bullet_lines_of_facts (facts : list pystr) :
  flat_map fact_of_line (map (fun m => BULLET ++ m) facts) = map strip facts.
Proof.
  induction facts as [|fact facts IH]; [reflexivity |].
  cbn [map flat_map]. rewrite fact_of_bullet, IH. reflexivity.
Qed.

Lemma bullet_list_reads_back (facts : list pystr) :
  Forall clean_fact facts ->
  parse_bullets (bullet_list facts) = facts.
Proof.
  intros Hclean. unfold parse_bullets, bullet_list.
  rewrite splitlines_join.
  - rewrite bullet_lines_of_facts.
    induction Hclean as [|fact facts [Hfact _] _ IH]; [reflexivity |].
    cbn [map]. rewrite Hfact, IH. reflexivity.
  - apply Forall_map. eapply Forall_impl; [exact Hclean |].
    intros fact [_ Hline]. split; [discriminate |].
    apply Forall_app. split; [| exact Hline].
    repeat constructor.
Qed.

Lemma strip_fixed_rstrip (s : pystr) : strip s = s -> rstrip s = s.
Proof.
  intros H. assert (lstrip s = s) as Hl.
  { rewrite <- H at 1. rewrite lstrip_strip. exact H. }
  unfold strip in H. rewrite Hl in H. exact H.
Qed.

Lemma rstrip_app_fixed (a b : pystr) :
  b <> [] -> rstrip b = b -> rstrip (a ++ b) = a ++ b.
Proof.
  intros Hne Hb. unfold rstrip in *.
  assert (lstrip (rev b) = rev b) as Hl.
  { rewrite <- Hb at 2. rewrite rev_involutive. reflexivity. }
  rewrite rev_app_distr, lstrip_app, Hl.
  destruct (rev b) as [|c t] eqn:E.
  - apply (f_equal (@rev codepoint)) in E. rewrite rev_involutive in E.
    contradiction.
  - rewrite <- E, <- rev_app_distr, rev_involutive. reflexivity.
Qed.

Lemma join_snoc (sep : pystr) (parts : list pystr) (p : pystr) :
  exists before, join sep (parts ++ [p]) = before ++ p.
Proof.
  induction parts as [|q parts [before IH]]; [exists []; reflexivity |].
  destruct parts as [|r parts].
  - exists (q ++ sep). cbn [app join]. rewrite <- app_assoc. reflexivity.
  - exists (q ++ sep ++ before).
    change (join sep ((q :: r :: parts) ++ [p]))
      with (q ++ sep ++ join sep ((r :: parts) ++ [p])).
    rewrite IH, <- !app_assoc. reflexivity.
Qed.

(** A bullet list of clean facts whose last fact is not empty has no
    surrounding whitespace: the gateway returns it as the backend sent it. *)
Lemma strip_bullet_list (facts : list pystr) :
  Forall clean_fact facts -> last facts <> Some [] ->
  strip (bullet_list facts) = bullet_list facts.
Proof.
  intros Hclean Hlast.
  destruct facts as [|first others]; [reflexivity |].
  assert (exists t : pystr,
             bullet_list (first :: others) = @cons codepoint 45%N t) as [t Ht].
  { unfold bullet_list. destruct others; cbn; eauto. }
  unfold strip.
  rewrite (lstrip_fixed _ 45%N t Ht eq_refl).
  destruct (exists_last (l := first :: others)) as (init & fact & Hsplit);
    [discriminate |].
  rewrite Hsplit in *. unfold bullet_list. rewrite map_app. cbn [map].
  set (lines := map _ init).
  pose proof (join_snoc [NL] lines (BULLET ++ fact)) as Hjoin.
  unfold pystr in Hjoin. destruct Hjoin as [before ->].
  rewrite last_snoc in Hlast.
  apply Forall_app in Hclean as [_ Hfact].
  apply Forall_cons in Hfact as [[Hfact _] _].
  rewrite !app_assoc. apply rstrip_app_fixed.
  - intros ->. apply Hlast. reflexivity.
  - apply strip_fixed_rstrip, Hfact.
Qed.


(** X2: the bullet list the prompts show for a list of clean facts reads
    back, by the reply parser, as the same facts in the same order; and so
    it does after the gateway has stripped it, when the last fact is not
    empty. *)
Theorem parse_bullets_bullet_list (facts : list pystr) :
  Forall clean_fact facts ->
  parse_bullets (bullet_list facts) = facts
  /\ (last facts <> Some [] ->
      parse_bullets (strip (bullet_list facts)) = facts).
Proof.
  intros Hclean. split; [apply bullet_list_reads_back, Hclean |].
  intros Hlast. rewrite (strip_bullet_list _ Hclean Hlast).
  apply bullet_list_reads_back, Hclean.
Qed.

Lemma parse_bullets_bullet_list_witness :
  parse_bullets (bullet_list [py "Likes tea"; []; py "Uses Linux"])
  = [py "Likes tea"; []; py "Uses Linux"]
  /\ parse_bullets (strip (bullet_list [py "Likes tea"; []; py "Uses Linux"]))
     = [py "Likes tea"; []; py "Uses Linux"].
Proof.
  destruct (parse_bullets_bullet_list [py "Likes tea"; []; py "Uses Linux"])
    as [Hraw Hstripped]; [repeat constructor |].
  split; [exact Hraw | apply Hstripped; discriminate].
Defined.

(** ** The gateway under any backend *)

Section GatewayInvariants.
Context `{P : Platform}.

(** Every call ends at the first model. *)
Lemma call_model_once prompt (st : state) :
  exists outcome w,
    call_model prompt st
    = (outcome, mkState P w (calls st ++ [(FIRST_MODEL, prompt)]))
    /\ match outcome with
       | Returned result => strip result = result
       | Raised e => forall err, e <> ClientError err
       end.
Proof.
  destruct (send_message FIRST_MODEL prompt (world st)) as [r w] eqn:Hsend.
  eexists _, w. split; [exact (call_model_first _ _ _ _ Hsend) |].
  destruct r as [text | [err | name | | key | what]];
    try (intros ?; discriminate).
  apply strip_idem.
Qed.

(** X3: whatever the backend does, one [call_model] asks between one and
    [length MODELS] models, namely the first ones of [MODELS] in order, each
    with the same prompt, and adds these calls to the end of the log. *)
Theorem call_model_calls prompt (st : state) :
  exists k,
    1 <= k <= length MODELS
    /\ calls (call_model prompt st).2
       = calls st ++ attempts (take k MODELS) prompt
    /\ length (calls (call_model prompt st).2) = length (calls st) + k.
Proof.
  destruct (call_model_once prompt st) as (outcome & w & Hrun & _).
  exists 1. rewrite Hrun. cbn [snd calls].
  split; [change (length MODELS) with 6; lia |]. split; [reflexivity |].
  rewrite length_app. reflexivity.
Qed.

(** X4: what [call_model] returns has no surrounding whitespace, be it a
    backend's text or the sentinel; and the exception it raises, if any, is
    never the capacity signal, nor any other [ClientError]. *)
Theorem call_model_outcome prompt (st : state) :
  (forall result st',
      call_model prompt st = (Returned result, st') -> strip result = result)
  /\ (forall e st',
         call_model prompt st = (Raised e, st') ->
         forall err, e <> ClientError err).
Proof.
  destruct (call_model_once prompt st) as (outcome & w & Hrun & Hout).
  split; intros x st' Hrun'; rewrite Hrun in Hrun';
    injection Hrun' as -> _; exact Hout.
Qed.

End GatewayInvariants.

Lemma call_model_outcome_witness :
  strip (strip TEA_REPLY) = strip TEA_REPLY
  /\ AttributeError "status_code" <> ClientError QUOTA.
Proof.
  split.
  - destruct (call_model_outcome (P := answers TEA_REPLY) (py "hi")
                (start (answers TEA_REPLY) 0)) as [Hret _].
    eapply Hret. reflexivity.
  - destruct (call_model_outcome (P := first_exhausted) (py "hi")
                (start first_exhausted 0)) as [_ Hraise].
    eapply Hraise. reflexivity.
Defined.

(** ** Curator and filter at the edges *)

Section CuratorEdges.
Context `{P : Platform}.

(** X5: when the first model signals capacity exhaustion, or raises any
    other [ClientError], curation stops: [update_memories] raises the
    handler's [AttributeError] after that one call and returns no fact list,
    so the existing facts are not replaced; [get_relevant_memories] does the
    same for a list that is not empty. *)
Theorem client_error_stops_curation user_message facts (st : state) err w :
  (send_message FIRST_MODEL (update_prompt user_message facts) (world st)
   = (Raised (ClientError err), w) ->
   update_memories user_message facts st
   = (Raised (AttributeError "status_code"),
      mkState P w
        (calls st ++ [(FIRST_MODEL, update_prompt user_message facts)])))
  /\ (facts <> [] ->
      send_message FIRST_MODEL (relevance_prompt user_message facts) (world st)
      = (Raised (ClientError err), w) ->
      get_relevant_memories user_message facts st
      = (Raised (AttributeError "status_code"),
         mkState P w
           (calls st ++ [(FIRST_MODEL, relevance_prompt user_message facts)]))).
Proof.
  split.
  - intros Hsend. unfold update_memories, bind.
    rewrite (call_model_first _ _ _ _ Hsend). reflexivity.
  - intros Hne Hsend. destruct facts as [|fact facts]; [congruence |].
    unfold get_relevant_memories, bind.
    rewrite (call_model_first _ _ _ _ Hsend). reflexivity.
Qed.

(** X6: the relevance filter answers the NONE signal, in any case and with
    any padding the gateway leaves, by the empty list after one gateway
    call. *)
Theorem get_relevant_memories_none user_message long_term
    (st st' : state) result :
  call_model (relevance_prompt user_message long_term) st
  = (Returned result, st') ->
  upper (strip result) = py "NONE" ->
  get_relevant_memories user_message long_term st
  = (Returned [], if long_term is [] then st else st').
Proof.
  intros Hcall Hnone. destruct long_term as [|fact facts]; [reflexivity |].
  assert (fact :: facts <> []) as Hne by discriminate.
  rewrite (get_relevant_memories_run _ _ _ _ _ Hne Hcall).
  apply is_none_true in Hnone. rewrite Hnone. reflexivity.
Qed.


End CuratorEdges.

Lemma client_error_stops_curation_witness :
  update_memories (py "hello") [PINNED_FACT] (start all_exhausted 0)
  = (Raised (AttributeError "status_code"),
     mkState all_exhausted 1
       [(FIRST_MODEL, update_prompt (py "hello") [PINNED_FACT])])
  /\ get_relevant_memories (py "hello") [PINNED_FACT] (start all_exhausted 0)
     = (Raised (AttributeError "status_code"),
        mkState all_exhausted 1
          [(FIRST_MODEL, relevance_prompt (py "hello") [PINNED_FACT])]).
Proof.
  destruct (client_error_stops_curation (P := all_exhausted)
              (py "hello") [PINNED_FACT] (start all_exhausted 0) QUOTA 1)
    as [Hupdate Hfilter].
  split.
  - apply Hupdate. reflexivity.
  - apply Hfilter; [discriminate | reflexivity].
Defined.

Lemma get_relevant_memories_none_witness :
  get_relevant_memories (py "hello") [py "Likes tea"]
    (start (answers (py " None ")) 0)
  = (Returned [],
     mkState (answers (py " None ")) 1
       [("gemma-3-27b-it"%string,
         relevance_prompt (py "hello") [py "Likes tea"])]).
Proof.
  apply (get_relevant_memories_none (P := answers (py " None "))
           (py "hello") [py "Likes tea"] (start (answers (py " None ")) 0)
           _ (py "None")); reflexivity.
Defined.


Lemma is_none_padded_witness :
  is_none (P := answers []) ([32%N; NL] ++ py "nOnE" ++ [9%N]) = true.
Proof.
  apply (is_none_padded (P := answers []) [32%N; NL] [9%N] (py "nOnE")).
  - repeat constructor.
  - repeat constructor.
  - unfold case_variant.
    change (py "nOnE") with [110; 79; 110; 69]%N.
    change NONE with [78; 79; 78; 69]%N.
    repeat (constructor; [(left; reflexivity) || (right; reflexivity) |]).
    constructor.
Defined.

Example stripped_echo_drops_empty_last_fact :
  parse_bullets (strip (bullet_list [py "Likes tea"; []])) = [py "Likes tea"].
Proof. reflexivity. Qed.

(** ** Buffer and reply limit under composition *)

Lemma trim_short_term_snoc {A} (b : list A) (t : A) :
  trim_short_term (trim_short_term b ++ [t]) = trim_short_term (b ++ [t]).
Proof.
  rewrite !trim_short_term_drop.
  rewrite <- (drop_app_le b [t] (length b - 12)) by lia.
  rewrite drop_drop. f_equal.
  rewrite length_drop, !length_app. cbn [length]. lia.
Qed.

(** The newest entries survive the trim: a buffer that ends with at most
    twelve given entries still ends with them. *)
Lemma trim_short_term_keeps_tail {A} (b newest : list A) :
  length newest <= 12 ->
  exists older, trim_short_term (b ++ newest) = older ++ newest.
Proof.
  intros Hlen. rewrite trim_short_term_drop, length_app.
  exists (drop (length b + length newest - 12) b).
  apply drop_app_le. lia.
Qed.

(** X8: trimming after each append is the same as trimming the whole
    history once, and the entry appended last is always retained, as the
    newest one. *)
Theorem trim_short_term_append (b : list turn) (t : turn) :
  trim_short_term (trim_short_term b ++ [t]) = trim_short_term (b ++ [t])
  /\ last (trim_short_term (b ++ [t])) = Some t.
Proof.
  split; [apply trim_short_term_snoc |].
  destruct (trim_short_term_keeps_tail b [t]) as [older ->];
    [cbn [length]; lia |].
  apply last_snoc.
Qed.

(** X9: the cut to the message limit never exceeds 2000 characters, leaves
    the first 1997 characters of the reply as they were, and cutting again
    changes nothing. *)
Theorem discord_limit_idempotent (reply : pystr) :
  (Z.of_nat (length (discord_limit reply)) <= 2000)%Z
  /\ take 1997 (discord_limit reply) = take 1997 reply
  /\ discord_limit (discord_limit reply) = discord_limit reply.
Proof.
  pose proof (discord_limit_length reply) as Hlen.
  split; [exact Hlen |]. split.
  - unfold discord_limit.
    destruct (Z.ltb_spec 2000 (Z.of_nat (length reply))) as [Hlong | Hshort];
      [| reflexivity].
    unfold slice_to. change (1997 <? 0)%Z with false. cbv iota.
    replace (Z.to_nat (Z.min 1997 (Z.of_nat (length reply)))) with 1997 by lia.
    rewrite take_app_le by (rewrite length_take; lia).
    rewrite take_take. f_equal; lia.
  - unfold discord_limit at 1.
    destruct (Z.ltb_spec 2000 (Z.of_nat (length (discord_limit reply))));
      [lia | reflexivity].
Qed.

(** ** Prompt composition and whole requests *)

Section Requests.
Context `{P : Platform}.


Lemma asked_weaken (st st' : state) a b a' b' :
  asked st st' a b -> a' <= a -> b <= b' -> asked st st' a' b'.
Proof. intros (n & H & Hb) Ha Hb'. exists n. split; [exact H | lia]. Qed.

Lemma asked_refl (st : state) : asked st st 0 0.
Proof. exists []. rewrite app_nil_r. split; [reflexivity | cbn; lia]. Qed.

Lemma call_model_run prompt (st : state) outcome st' :
  call_model prompt st = (outcome, st') ->
  asked st st' 1 1
  /\ match outcome with
     | Returned result => strip result = result
     | Raised e => forall err, e <> ClientError err
     end.
Proof.
  intros Hrun.
  destruct (call_model_once prompt st) as (outcome' & w & Hrun' & Hout).
  rewrite Hrun in Hrun'. injection Hrun' as -> ->. split; [| exact Hout].
  exists [(FIRST_MODEL, prompt)]. split; [reflexivity | cbn [length]; lia].
Qed.

Lemma update_memories_spec user_message existing (st : state) :
  update_memories user_message existing st
  = match call_model (update_prompt user_message existing) st with
    | (Returned result, st') =>
        (Returned (if is_none result then existing else parse_bullets result),
         st')
    | (Raised e, st') => (Raised e, st')
    end.
Proof.
  unfold update_memories, bind.
  destruct (call_model _ st) as [[result | e] st']; [| reflexivity].
  destruct (is_none result); reflexivity.
Qed.

Lemma update_memories_asked user_message existing (st : state) outcome st' :
  update_memories user_message existing st = (outcome, st') ->
  asked st st' 1 1
  /\ match outcome with
     | Returned _ => True
     | Raised e => forall err, e <> ClientError err
     end.
Proof.
  rewrite update_memories_spec.
  destruct (call_model _ st) as [[result | e] st1] eqn:Hcall;
    intros [= <- <-]; destruct (call_model_run _ _ _ _ Hcall); auto.
Qed.

Lemma get_relevant_memories_asked user_message long_term
    (st : state) outcome st' :
  get_relevant_memories user_message long_term st = (outcome, st') ->
  asked st st' 0 1
  /\ match outcome with
     | Returned _ => True
     | Raised e => forall err, e <> ClientError err
     end.
Proof.
  destruct long_term as [|fact facts].
  - intros [= <- <-]. split; [| exact I].
    eapply asked_weaken; [apply asked_refl | lia | lia].
  - unfold get_relevant_memories, bind.
    destruct (call_model _ st) as [[result | e] st1] eqn:Hcall.
    + destruct (call_model_run _ _ _ _ Hcall) as [Hasked _].
      destruct (is_none result); intros [= <- <-];
        (split; [eapply asked_weaken; [exact Hasked | lia | lia] | exact I]).
    + destruct (call_model_run _ _ _ _ Hcall) as [Hasked Hne].
      intros [= <- <-].
      split; [eapply asked_weaken; [exact Hasked | lia | lia] | exact Hne].
Qed.

Lemma build_prompt_run long_term short_term (st : state) outcome st' :
  build_prompt long_term short_term st = (outcome, st') ->
  asked st st' 0 1
  /\ match outcome with
     | Returned prompt =>
         SYSTEM `prefix_of` prompt
         /\ conversation_block short_term `suffix_of` prompt
     | Raised e => forall err, e <> ClientError err
     end.
Proof.
  assert (forall block : pystr,
             SYSTEM `prefix_of` SYSTEM ++ block ++ conversation_block short_term
             /\ conversation_block short_term
                `suffix_of` SYSTEM ++ block ++ conversation_block short_term)
    as Hframe.
  { intros block. split; [apply prefix_app_r; reflexivity |].
    rewrite app_assoc. apply suffix_app_r. reflexivity. }
  assert (asked st st 0 1) as Hsame
    by (eapply asked_weaken; [apply asked_refl | lia | lia]).
  unfold build_prompt.
  destruct long_term as [|fact facts].
  - intros [= <- <-]. split; [exact Hsame | apply (Hframe [])].
  - destruct (last short_term) as [newest |].
    + unfold bind at 1 2.
      destruct (get_relevant_memories _ _ st) as [[relevant | e] st1] eqn:Hget;
        intros [= <- <-];
        destruct (get_relevant_memories_asked _ _ _ _ _ Hget) as [Hasked Hne].
      * split; [exact Hasked | apply Hframe].
      * split; [exact Hasked | exact Hne].
    + intros [= <- <-]. split; [exact Hsame | apply (Hframe [])].
Qed.

(** X10: the composed prompt always opens with the system preamble and
    closes with the conversation; composing asks the backend at most
    [length MODELS] times and never raises a [ClientError];
    and with no facts or no turns it asks nothing at all and the prompt is
    the preamble followed by the conversation. *)
Theorem build_prompt_frame long_term short_term (st : state) outcome st' :
  build_prompt long_term short_term st = (outcome, st') ->
  asked st st' 0 (length MODELS)
  /\ match outcome with
     | Returned prompt =>
         SYSTEM `prefix_of` prompt
         /\ conversation_block short_term `suffix_of` prompt
     | Raised e => forall err, e <> ClientError err
     end
  /\ (long_term = [] \/ short_term = [] ->
      outcome = Returned (SYSTEM ++ conversation_block short_term)
      /\ st' = st).
Proof.
  intros Hrun. destruct (build_prompt_run _ _ _ _ _ Hrun) as [Hasked Hshape].
  split; [eapply asked_weaken;
            [exact Hasked | lia | change (length MODELS) with 6; lia] |].
  split; [exact Hshape |].
  intros Hempty. unfold build_prompt in Hrun.
  assert (match long_term, last short_term with
          | _ :: _, Some _ => False
          | _, _ => True
          end) as Hskip.
  { destruct Hempty as [-> | ->]; [exact I |].
    destruct long_term; exact I. }
  destruct long_term as [|fact facts];
    [injection Hrun as <- <-; split; reflexivity |].
  destruct (last short_term); [destruct Hskip |].
  injection Hrun as <- <-. split; reflexivity.
Qed.

End Requests.

Lemma build_prompt_frame_witness :
  asked (start (answers TEA_REPLY) 0)
    (build_prompt [py "Likes tea"] [user_turn (py "hi")]
       (start (answers TEA_REPLY) 0)).2 0 6
  /\ build_prompt [] [user_turn (py "hi")] (start (answers TEA_REPLY) 0)
     = (Returned (SYSTEM ++ conversation_block [user_turn (py "hi")]),
        start (answers TEA_REPLY) 0).
Proof.
  split.
  - destruct (build_prompt_frame (P := answers TEA_REPLY)
                [py "Likes tea"] [user_turn (py "hi")]
                (start (answers TEA_REPLY) 0) _ _ eq_refl) as [Hasked _].
    exact Hasked.
  - destruct (build_prompt_frame (P := answers TEA_REPLY)
                [] [user_turn (py "hi")]
                (start (answers TEA_REPLY) 0) _ _ eq_refl) as (_ & _ & Hskip).
    destruct (Hskip (or_introl eq_refl)) as [Hout Hst].
    reflexivity.
Defined.

Section Ask.
Context `{P : Platform}.

Lemma trim_short_term_length {A} (b : list A) :
  length (trim_short_term b) <= 12.
Proof. rewrite trim_short_term_drop, length_drop. lia. Qed.


(** *** The store operators *)

Lemma dict_get_set_eq members key v :
  dict_get (dict_set members key v) key = Some v.
Proof.
  induction members as [|[k old] members IH]; cbn [dict_set dict_get].
  - unfold pystr_eqb. rewrite bool_decide_eq_true_2 by reflexivity. reflexivity.
  - destruct (pystr_eqb k key) eqn:E; cbn [dict_get]; rewrite E;
      [reflexivity | exact IH].
Qed.

Lemma dict_get_set_ne members key v other :
  other <> key -> dict_get (dict_set members key v) other = dict_get members other.
Proof.
  intros Hne. induction members as [|[k old] members IH]; cbn [dict_set dict_get].
  - unfold pystr_eqb. rewrite bool_decide_eq_false_2 by congruence. reflexivity.
  - destruct (pystr_eqb k key) eqn:E; cbn [dict_get].
    + apply bool_decide_eq_true in E. subst k.
      unfold pystr_eqb. rewrite !bool_decide_eq_false_2 by congruence.
      reflexivity.
    + rewrite IH. reflexivity.
Qed.

Lemma getitem_setitem_ne obj obj' key v other :
  setitem obj key v = Returned obj' -> other <> key ->
  getitem obj' other = getitem obj other.
Proof.
  destruct obj; try discriminate. intros [= <-] Hne.
  cbn [getitem]. rewrite dict_get_set_ne by exact Hne. reflexivity.
Qed.





Lemma getitem_mapping obj key v :
  getitem obj key = Returned v ->
  exists members, obj = JObject members /\ dict_get members key = Some v.
Proof.
  destruct obj as [| | | | |members]; try discriminate.
  cbn [getitem]. destruct (dict_get members key) eqn:E; [| discriminate].
  intros [= <-]. eauto.
Qed.

Lemma iter_strs_strings (facts : list pystr) :
  iter_strs (JArray (map JString facts)) = Returned facts.
Proof.
  cbn [iter_strs]. induction facts as [|fact facts IH]; [reflexivity |].
  cbn [map foldr]. rewrite IH. reflexivity.
Qed.


(** On a list of strings the curator on objects is the curator on lists. *)
Lemma update_memories_value_strings user_message facts (st : state) :
  update_memories_value user_message (JArray (map JString facts)) st
  = match update_memories user_message facts st with
    | (Returned facts', st') => (Returned (JArray (map JString facts')), st')
    | (Raised e, st') => (Raised e, st')
    end.
Proof.
  unfold update_memories_value. rewrite iter_strs_strings.
  unfold update_memories, bind.
  destruct (call_model _ st) as [[result | e] st']; [| reflexivity].
  destruct (is_none result); reflexivity.
Qed.


Lemma sessions_opened (sessions : gmap pystr (list turn)) user_id other :
  match sessions !! user_id with
  | Some _ => sessions
  | None => <[user_id := []]> sessions
  end !! other
  = if decide (other = user_id) then Some (default [] (sessions !! user_id))
    else sessions !! other.
Proof.
  destruct (decide (other = user_id)) as [-> | Hne].
  - destruct (sessions !! user_id) as [short |] eqn:E;
      [rewrite E; reflexivity | apply lookup_insert_eq].
  - destruct (sessions !! user_id); [reflexivity |].
    apply lookup_insert_ne. congruence.
Qed.


(** X12: a request touches its own user only.  Whatever the outcome, the
    user's buffer exists, and it holds at most 2 * SHORT_TERM_TURNS turns
    unless the request stopped at the store and left the buffer as it was;
    the buffers of the other users, and what the store holds for them, are
    as they were; and a store that is a mapping stays one and holds an
    entry for the user. *)
Theorem ask_isolation user_id message b (st : state) outcome b' st' :
  ask user_id message b st = (outcome, b', st') ->
  (exists short,
      user_sessions b' !! user_id = Some short
      /\ ((Z.of_nat (length short) <= 2 * SHORT_TERM_TURNS)%Z
          \/ short = default [] (user_sessions b !! user_id)))
  /\ (forall other,
         other <> user_id ->
         user_sessions b' !! other = user_sessions b !! other
         /\ getitem (persistent_memories b') other
            = getitem (persistent_memories b) other)
  /\ (forall members,
         persistent_memories b = JObject members ->
         exists members' entry,
           persistent_memories b' = JObject members'
           /\ dict_get members' user_id = Some entry).
Proof.
  unfold ask, SHORT_TERM_TURNS. cbv zeta.
  pose proof (sessions_opened (user_sessions b) user_id) as Hopen.
  set (sessions := match user_sessions b !! user_id with
                   | Some _ => user_sessions b
                   | None => <[user_id := []]> (user_sessions b)
                   end) in *.
  assert (sessions !! user_id = Some (default [] (user_sessions b !! user_id)))
    as Hown by (rewrite Hopen, decide_True by reflexivity; reflexivity).
  assert (forall other, other <> user_id ->
                        sessions !! other = user_sessions b !! other)
    as Hothers by (intros other Hne; rewrite Hopen, decide_False by exact Hne;
                   reflexivity).
  clear Hopen.
  (* the store after lines 195-196 *)
  destruct (contains _ _) as [present | e] eqn:Hcontains.
  2:{ intros [= <- <- <-]. cbn [user_sessions persistent_memories].
      split; [eauto |]. split; [intros other Hne; split; [auto | reflexivity] |].
      intros members Hm. rewrite Hm in Hcontains. discriminate. }
  destruct (if present then _ else _) as [memories | e] eqn:Hinit.
  2:{ intros [= <- <- <-]. cbn [user_sessions persistent_memories].
      split; [eauto |]. split; [intros other Hne; split; [auto | reflexivity] |].
      intros members Hm. rewrite Hm in Hinit.
      destruct present; discriminate. }
  assert (forall other, other <> user_id ->
                        getitem memories other
                        = getitem (persistent_memories b) other) as Hkeep.
  { intros other Hne. destruct present.
    - injection Hinit as <-. reflexivity.
    - eapply getitem_setitem_ne; eassumption. }
  assert (forall members,
             persistent_memories b = JObject members ->
             exists members' entry,
               memories = JObject members'
               /\ dict_get members' user_id = Some entry) as Hentry0.
  { intros members Hm. rewrite Hm in Hcontains, Hinit.
    destruct present.
    - injection Hinit as <-. injection Hcontains as Hpresent.
      destruct (dict_get members user_id) as [entry |] eqn:E; [| discriminate].
      eauto.
    - injection Hinit as <-. eexists _, _. split; [reflexivity |].
      apply dict_get_set_eq. }
  assert ((exists short,
                 sessions !! user_id = Some short
                 /\ ((Z.of_nat (length short) <= 2 * 6)%Z
                     \/ short = default [] (user_sessions b !! user_id)))
             /\ (forall other,
                    other <> user_id ->
                    sessions !! other = user_sessions b !! other
                    /\ getitem memories other
                       = getitem (persistent_memories b) other)
             /\ (forall members,
                    persistent_memories b = JObject members ->
                    exists members' entry,
                      memories = JObject members'
                      /\ dict_get members' user_id = Some entry)) as Hstop
    by (split; [eauto |]; split; [intros other Hne; split; auto | exact Hentry0]).
  destruct (getitem memories user_id) as [entry | e] eqn:Hentry;
    [| intros [= <- <- <-]; exact Hstop].
  destruct (getitem entry _) as [long | e] eqn:Hlong;
    [| intros [= <- <- <-]; exact Hstop].
  clear Hstop. rewrite Hown. cbn [default].
  set (short := trim_short_term
                  (default [] (user_sessions b !! user_id)
                   ++ [mkTurn (py "user") message])).
  assert (Z.of_nat (length short) <= 2 * 6)%Z as Hshort
    by (pose proof (trim_short_term_length
                      (default [] (user_sessions b !! user_id)
                       ++ [mkTurn (py "user") message])); subst short; lia).
  assert (forall later : list turn,
             (forall other, other <> user_id ->
                 <[user_id := later]> sessions !! other
                 = user_sessions b !! other)) as Hsess.
  { intros later other Hne. rewrite lookup_insert_ne by congruence. auto. }
  destruct (update_memories_value _ _ st) as [[long' | e] st1].
  2:{ intros [= <- <- <-]. cbn [user_sessions persistent_memories].
      rewrite lookup_insert_eq. split; [eauto |].
      split; [intros other Hne; split; auto | exact Hentry0]. }
  destruct (getitem_mapping _ _ _ Hlong) as (inner & -> & _).
  destruct (getitem_mapping _ _ _ Hentry) as (members0 & -> & _).
  cbn [setitem].
  assert (forall other, other <> user_id ->
             getitem (JObject (dict_set members0 user_id
                                 (JObject (dict_set inner (py "long") long'))))
               other
             = getitem (persistent_memories b) other) as Hkeep'.
  { intros other Hne. rewrite <- (Hkeep other Hne). cbn [getitem].
    rewrite dict_get_set_ne by exact Hne. reflexivity. }
  assert (forall members,
             persistent_memories b = JObject members ->
             exists members' entry,
               JObject (dict_set members0 user_id
                          (JObject (dict_set inner (py "long") long')))
               = JObject members'
               /\ dict_get members' user_id = Some entry) as Hentry'.
  { intros members _. eexists _, _. split; [reflexivity |].
    apply dict_get_set_eq. }
  destruct (iter_strs long') as [items | e].
  2:{ intros [= <- <- <-]. cbn [user_sessions persistent_memories].
      rewrite lookup_insert_eq. split; [eauto |].
      split; [intros other Hne; split; auto | exact Hentry']. }
  destruct (build_prompt _ _ st1) as [[prompt | e] st2].
  2:{ intros [= <- <- <-]. cbn [user_sessions persistent_memories].
      rewrite lookup_insert_eq. split; [eauto |].
      split; [intros other Hne; split; auto | exact Hentry']. }
  destruct (call_model prompt st2) as [[reply | e] st3];
    intros [= <- <- <-]; cbn [user_sessions persistent_memories];
    rewrite lookup_insert_eq.
  - split.
    + eexists. split; [reflexivity |]. left.
      match goal with
      | |- context [length (trim_short_term ?l)] =>
          pose proof (trim_short_term_length l)
      end. lia.
    + split; [| exact Hentry'].
      intros other Hne. split; [| auto].
      rewrite lookup_insert_ne by congruence. auto.
  - split; [eauto |].
    split; [intros other Hne; split; auto | exact Hentry'].
Qed.



End Ask.

Lemma triple_eta {A B C} (r : A * B * C) : r = (r.1.1, r.1.2, r.2).
Proof. destruct r as [[a b] c]. reflexivity. Qed.


Lemma ask_isolation_witness :
  user_sessions
    (ask (py "42") (py "I like tea") neighbour
       (start (answers TEA_REPLY) 0)).1.2 !! py "7"
  = Some [user_turn (py "hello")]
  /\ getitem
       (persistent_memories
          (ask (py "42") (py "I like tea") neighbour
             (start (answers TEA_REPLY) 0)).1.2) (py "7")
     = Returned (entry_of [py "Uses Linux"]).
Proof.
  destruct (ask_isolation (P := answers TEA_REPLY) _ _ _ _ _ _ _
              (triple_eta (ask (py "42") (py "I like tea") neighbour
                             (start (answers TEA_REPLY) 0))))
    as (_ & Hothers & _).
  destruct (Hothers (py "7")) as [Hs Hm]; [discriminate |].
  rewrite Hs, Hm. split; reflexivity.
Defined.

